(** * Pretrain GPT (pretrain_gpt.py): batch construction, curriculum
    reshaping, staged forward and loss aggregation.

    A shallow embedding of the orchestration functions of
    [pretrain_gpt.py] and the properties the specification states about
    them.

    Conventions of the embedding.
    - Python integers are [Z]; [//] and [%] are [Z.div] and [Z.modulo]
      (both floor-rounding, like Python, for a non-zero divisor), and a
      zero divisor raises [ZeroDivisionError].
    - Python exceptions are values of [PyError] carried by [result].
    - A 2-D tensor is a list of rows together with its column count, so
      that [size(1)] is defined for a tensor without rows.
    - Tensor elements are IEEE floats in the source.  They are modelled as
      exact rationals extended with the two infinities and NaN, following
      the IEEE rules for special values; rounding and the sign of zero are
      not modelled. *)

From stdpp Require Import gmap strings list fin_maps.
From Stdlib Require Import ZArith QArith Qcanon Lia.

Open Scope Z_scope.

(** ** Exceptions *)

Inductive PyError : Type :=
  | AssertionError
  | ZeroDivisionError
  | IndexError
  | ValueError
  | TypeError
  | RuntimeError.

Inductive result (A : Type) : Type :=
  | Ok (a : A)
  | Raise (e : PyError).

Arguments Ok {A} a.
Arguments Raise {A} e.

#[global] Instance result_ret : MRet result := fun A a => Ok a.

#[global] Instance result_bind : MBind result := fun A B k r =>
  match r with
  | Ok a => k a
  | Raise e => Raise e
  end.

#[global] Instance result_fmap : FMap result := fun A B f r =>
  match r with
  | Ok a => Ok (f a)
  | Raise e => Raise e
  end.

Definition py_assert (b : bool) : result unit :=
  if b then Ok tt else Raise AssertionError.

(** ** Python slices *)

Section Slices.
Context {A : Type}.

(** Normalisation of one slice bound against a length [n]: a negative
    bound counts from the end, and the result is clamped to [0..n]. *)
Definition norm_bound (n i : Z) : Z :=
  if i <? 0 then Z.max (i + n) 0 else Z.min i n.

Definition slice_lo (n : Z) (lo : option Z) : Z :=
  match lo with None => 0 | Some i => norm_bound n i end.

Definition slice_hi (n : Z) (hi : option Z) : Z :=
  match hi with None => n | Some i => norm_bound n i end.

(** Number of elements of [l[lo:hi]] for a list of length [n]. *)
Definition slice_len (lo hi : option Z) (n : nat) : nat :=
  Z.to_nat (slice_hi (Z.of_nat n) hi - slice_lo (Z.of_nat n) lo).

(** [l[lo:hi]] *)
Definition py_slice (lo hi : option Z) (l : list A) : list A :=
  let n := Z.of_nat (length l) in
  take (Z.to_nat (slice_hi n hi - slice_lo n lo))
       (drop (Z.to_nat (slice_lo n lo)) l).
End Slices.

(** Indexing a Python sequence: a negative index counts from the end. *)
Definition py_index {A : Type} (l : list A) (index : Z) : result A :=
  let n := Z.of_nat (length l) in
  let i := if index <? 0 then index + n else index in
  if (i <? 0) || (n <=? i) then Raise IndexError
  else match l !! Z.to_nat i with
       | Some a => Ok a
       | None => Raise IndexError
       end.

(** [range(start, end)] *)
Definition py_range (start stop : Z) : list Z :=
  map (fun i => start + Z.of_nat i) (seq 0 (Z.to_nat (stop - start))).

(** ** 2-D tensors *)

Record tensor2 (A : Type) : Type := T2 {
  rows : list (list A);
  ncols : nat
}.

Arguments T2 {A} rows ncols.
Arguments rows {A} t.
Arguments ncols {A} t.

Section Tensor2.
Context {A : Type}.

(** Every row has the declared width. *)
Definition wf2 (t : tensor2 A) : Prop :=
  Forall (fun r => length r = ncols t) (rows t).

Definition nrows (t : tensor2 A) : nat := length (rows t).

(** [torch.numel] *)
Definition numel (t : tensor2 A) : Z := Z.of_nat (nrows t) * Z.of_nat (ncols t).

(** [t[:, lo:hi]] *)
Definition slice_cols (lo hi : option Z) (t : tensor2 A) : tensor2 A :=
  T2 (map (py_slice lo hi) (rows t)) (slice_len lo hi (ncols t)).

(** [t[lo:hi, :]] *)
Definition slice_rows (lo hi : option Z) (t : tensor2 A) : tensor2 A :=
  T2 (py_slice lo hi (rows t)) (ncols t).

(** [t.view(-1)] of a contiguous tensor: rows laid end to end. *)
Definition flatten (t : tensor2 A) : list A := concat (rows t).

(** Column-wise concatenation, [torch.cat((a, b), 1)]. *)
Definition hcat (a b : tensor2 A) : tensor2 A :=
  T2 (zip_with app (rows a) (rows b)) (ncols a + ncols b)%nat.

(** [n] consecutive chunks of width [w]. *)
Fixpoint chunk_rows (w n : nat) (l : list A) : list (list A) :=
  match n with
  | O => []
  | S n' => take w l :: chunk_rows w n' (drop w l)
  end.

(** [t.contiguous().view(-1, w)]: the inferred row count is
    [numel / w]; torch refuses a width that is not positive or does not
    divide the element count. *)
Definition view_rows (w : Z) (t : tensor2 A) : result (tensor2 A) :=
  if w <=? 0 then Raise RuntimeError
  else if negb (numel t mod w =? 0) then Raise RuntimeError
  else Ok (T2 (chunk_rows (Z.to_nat w) (Z.to_nat (numel t / w)) (flatten t))
              (Z.to_nat w)).

(** Row-wise concatenation, [torch.cat((a, b), 0)]; the widths must
    agree. *)
Definition vcat (a b : tensor2 A) : result (tensor2 A) :=
  if (ncols a =? ncols b)%nat then Ok (T2 (rows a ++ rows b) (ncols a))
  else Raise RuntimeError.
End Tensor2.

(** ** Process-group state and configuration *)

(** What the [mpu] queries of [get_batch] answer on this rank. *)
Record mpu_state : Type := Mpu {
  sequence_parallel_world_size : Z;
  sequence_parallel_rank : Z;
  tensor_model_parallel_world_size : Z;
  tensor_model_parallel_rank : Z
}.

(** ** Scalars *)

Inductive scalar : Type :=
  | Fin (q : Qc)
  | PInf
  | NInf
  | NaN.

#[global] Instance scalar_eq_dec : EqDecision scalar.
Proof. solve_decision. Defined.

Definition qsgn (q : Qc) : Z := Z.sgn (Qnum (this q)).

Definition ssgn (a : scalar) : Z :=
  match a with
  | Fin q => qsgn q
  | PInf => 1
  | NInf => -1
  | NaN => 0
  end.

Definition signed_inf (s : Z) : scalar :=
  if s =? 0 then NaN else if 0 <? s then PInf else NInf.

Definition sadd (a b : scalar) : scalar :=
  match a, b with
  | NaN, _ | _, NaN => NaN
  | PInf, NInf | NInf, PInf => NaN
  | PInf, _ | _, PInf => PInf
  | NInf, _ | _, NInf => NInf
  | Fin x, Fin y => Fin (x + y)%Qc
  end.

Definition smul (a b : scalar) : scalar :=
  match a, b with
  | NaN, _ | _, NaN => NaN
  | Fin x, Fin y => Fin (x * y)%Qc
  | _, _ => signed_inf (ssgn a * ssgn b)
  end.

Definition sdiv (a b : scalar) : scalar :=
  match a, b with
  | NaN, _ | _, NaN => NaN
  | Fin x, Fin y =>
      if decide (y = 0%Qc) then signed_inf (qsgn x) else Fin (x / y)%Qc
  | Fin _, _ => Fin 0%Qc
  | _, Fin y => if decide (y = 0%Qc) then a else signed_inf (ssgn a * qsgn y)
  | _, _ => NaN
  end.

Definition szero : scalar := Fin 0%Qc.
Definition sone : scalar := Fin 1%Qc.

(** An integer count as a float, e.g. the value of a sum of ones. *)
Definition of_Z (z : Z) : scalar := Fin (Q2Qc (inject_Z z)).

(** [torch.sum] of a flat tensor. *)
Definition tsum (l : list scalar) : scalar := foldr sadd szero l.

(** Python's builtin [sum]: a left fold that starts from [0]. *)
Definition py_sum (l : list scalar) : scalar := foldl sadd szero l.

(** The sub-mode recorded in
    [args.data_efficiency_curriculum_learning_seqlen_type]. *)
Inductive seqlen_type : Type :=
  | seqlen_truncate
  | seqlen_reshape.

(** The fields of [get_args()] this file reads or writes.
    [data_efficiency_curriculum_learning_seqlen_type] is [None] both when
    the attribute is unset and when it holds Python's [None]: the one
    reader tests [hasattr] and equality to ['seqlen_reshape']. *)
Record Args : Type := MkArgs {
  use_flash_attn : bool;
  use_flash_attn_triton : bool;
  reset_position_ids : bool;
  reset_attention_mask : bool;
  eod_mask_loss : bool;
  sequence_parallel : bool;
  seq_length : Z;
  data_efficiency_curriculum_learning : bool;
  data_efficiency_curriculum_learning_seqlen_type : option seqlen_type;
  data_efficiency_curriculum_learning_numel : option Z;
  curriculum_learning_legacy : bool;
  curriculum_seqlen : option Z;
  mos : bool;
  kd : bool;
  num_experts : list Z;
  moe_loss_coeff : scalar;
  kd_alpha_ce : scalar;
  kd_beta_ce : scalar;
  kd_temp : scalar;
  teacher_forward : bool
}.

(** 4-D boolean tensors (attention masks): [b, 1, s, s]. *)
Definition tensor4 (A : Type) : Type := list (list (list (list A))).

(** [t[:, :, :n, :n]] *)
Definition slice_last2 {A : Type} (n : Z) (t : tensor4 A) : tensor4 A :=
  map (map (fun m => map (py_slice None (Some n)) (py_slice None (Some n) m))) t.

(** The attention mask is [None] when a fused attention kernel is used. *)
Definition attn_mask : Type := option (tensor4 bool).

(** The five tensors [get_batch] returns, in its order. *)
Record PreparedBatch : Type := MkBatch {
  b_tokens : tensor2 Z;
  b_labels : tensor2 Z;
  b_loss_mask : tensor2 scalar;
  b_attention_mask : attn_mask;
  b_position_ids : tensor2 Z
}.

(** ** Batch builder *)

(** The external mask builder and tokenizer.
    [get_ltor_masks_and_position_ids] is
    [megatron.utils.get_ltor_masks_and_position_ids], called with
    [(tokens, eod, reset_position_ids, reset_attention_mask,
    eod_mask_loss, skip_mask)] and returning
    [(attention_mask, loss_mask, position_ids)]; [tokenizer_eod] is
    [get_tokenizer().eod]. *)
Class MaskBuilder : Type := {
  get_ltor_masks_and_position_ids :
    tensor2 Z -> Z -> bool -> bool -> bool -> bool ->
    attn_mask * tensor2 scalar * tensor2 Z;
  tokenizer_eod : Z
}.

Section BatchBuilder.
Context `{MaskBuilder}.

(** The sequence-parallel world size and rank [get_batch] slices with:
    those of the dedicated group, replaced by those of the tensor-parallel
    group under [args.sequence_parallel]. *)
Definition effective_world_size (args : Args) (mpu : mpu_state) : Z :=
  if sequence_parallel args then tensor_model_parallel_world_size mpu
  else sequence_parallel_world_size mpu.

Definition effective_rank (args : Args) (mpu : mpu_state) : Z :=
  if sequence_parallel args then tensor_model_parallel_rank mpu
  else sequence_parallel_rank mpu.

(** [get_batch].  [text] is [data_b['text']], the tensor every rank holds
    after [broadcast_data]. *)
Definition get_batch (args : Args) (mpu : mpu_state) (text : tensor2 Z)
  : result PreparedBatch :=
  let tokens_ := text in
  let labels := slice_cols (Some 1) None tokens_ in
  let tokens := slice_cols None (Some (-1)) tokens_ in
  let skip_mask := use_flash_attn args || use_flash_attn_triton args in
  let '(attention_mask, loss_mask, position_ids) :=
    get_ltor_masks_and_position_ids tokens tokenizer_eod
      (reset_position_ids args) (reset_attention_mask args)
      (eod_mask_loss args) skip_mask in
  let seq_parallel_world_size := effective_world_size args mpu in
  let seq_parallel_world_rank := effective_rank args mpu in
  let seq_length := Z.of_nat (ncols tokens) in
  if seq_parallel_world_size =? 0 then Raise ZeroDivisionError else
  _ ← py_assert (seq_length mod seq_parallel_world_size =? 0);
  let sub_seq_length := seq_length / seq_parallel_world_size in
  let sub_seq_start := seq_parallel_world_rank * sub_seq_length in
  let sub_seq_end := (seq_parallel_world_rank + 1) * sub_seq_length in
  let tokens := slice_cols (Some sub_seq_start) (Some sub_seq_end) tokens in
  let position_ids :=
    slice_cols (Some sub_seq_start) (Some sub_seq_end) position_ids in
  let labels :=
    if 1 <? sequence_parallel_world_size mpu
    then slice_cols (Some sub_seq_start) (Some sub_seq_end) labels
    else labels in
  Ok (MkBatch tokens labels loss_mask attention_mask position_ids).

(** [get_batch_pipe]: [text] is [data_b['text']] as above.  The mask
    builder is called with five arguments here, [skip_mask] taking its
    default [False]. *)
Definition get_batch_pipe (args : Args) (text : tensor2 Z)
  : result ((tensor2 Z * tensor2 Z * attn_mask) * (tensor2 Z * tensor2 scalar)) :=
  let tokens_ := text in
  let labels := slice_cols (Some 1) None tokens_ in
  let tokens := slice_cols None (Some (-1)) tokens_ in
  let '(attention_mask, loss_mask, position_ids) :=
    get_ltor_masks_and_position_ids tokens tokenizer_eod
      (reset_position_ids args) (reset_attention_mask args)
      (eod_mask_loss args) false in
  if curriculum_learning_legacy args then
    match curriculum_seqlen args with
    | None => Raise TypeError
    | Some cs =>
        if cs <? Z.of_nat (ncols tokens) then
          let tokens := slice_cols None (Some cs) tokens in
          let position_ids := slice_cols None (Some cs) position_ids in
          let labels := slice_cols None (Some cs) labels in
          let loss_mask := slice_cols None (Some cs) loss_mask in
          Ok ((tokens, position_ids, attention_mask), (labels, loss_mask))
        else Ok ((tokens, position_ids, attention_mask), (labels, loss_mask))
    end
  else Ok ((tokens, position_ids, attention_mask), (labels, loss_mask)).

End BatchBuilder.

(** ** Curriculum controller *)

Definition set_seqlen_type (v : option seqlen_type) (a : Args) : Args :=
  MkArgs (use_flash_attn a) (use_flash_attn_triton a) (reset_position_ids a)
    (reset_attention_mask a) (eod_mask_loss a) (sequence_parallel a)
    (seq_length a) (data_efficiency_curriculum_learning a) v
    (data_efficiency_curriculum_learning_numel a)
    (curriculum_learning_legacy a) (curriculum_seqlen a) (mos a) (kd a)
    (num_experts a) (moe_loss_coeff a) (kd_alpha_ce a) (kd_beta_ce a)
    (kd_temp a) (teacher_forward a).

Definition set_numel (v : option Z) (a : Args) : Args :=
  MkArgs (use_flash_attn a) (use_flash_attn_triton a) (reset_position_ids a)
    (reset_attention_mask a) (eod_mask_loss a) (sequence_parallel a)
    (seq_length a) (data_efficiency_curriculum_learning a)
    (data_efficiency_curriculum_learning_seqlen_type a) v
    (curriculum_learning_legacy a) (curriculum_seqlen a) (mos a) (kd a)
    (num_experts a) (moe_loss_coeff a) (kd_alpha_ce a) (kd_beta_ce a)
    (kd_temp a) (teacher_forward a).

Definition set_curriculum_seqlen (v : option Z) (a : Args) : Args :=
  MkArgs (use_flash_attn a) (use_flash_attn_triton a) (reset_position_ids a)
    (reset_attention_mask a) (eod_mask_loss a) (sequence_parallel a)
    (seq_length a) (data_efficiency_curriculum_learning a)
    (data_efficiency_curriculum_learning_seqlen_type a)
    (data_efficiency_curriculum_learning_numel a)
    (curriculum_learning_legacy a) v (mos a) (kd a)
    (num_experts a) (moe_loss_coeff a) (kd_alpha_ce a) (kd_beta_ce a)
    (kd_temp a) (teacher_forward a).

(** [math.ceil(a / b)] for integers [a], [b <> 0] (the true quotient is
    taken exactly). *)
Definition ceil_div (a b : Z) : Z := - ((- a) / b).

(** The reshape branch of [data_post_process] for
    [current_seqlen < args.seq_length]. *)
Definition reshape_text (current_seqlen : Z) (text : tensor2 Z)
  : result (tensor2 Z) :=
  let orig_num_token := numel text in
  if current_seqlen + 1 =? 0 then Raise ZeroDivisionError else
  let reshape_len :=
    (Z.of_nat (ncols text) / (current_seqlen + 1)) * (current_seqlen + 1) in
  head_rows ← view_rows (current_seqlen + 1)
                (slice_cols None (Some reshape_len) text);
  text ← vcat head_rows (slice_cols (Some (- (current_seqlen + 1))) None text);
  let num_row := ceil_div orig_num_token (current_seqlen + 1) in
  let num_row := Z.min num_row (Z.of_nat (nrows text)) in
  let num_row :=
    if (1 <? num_row) && negb (num_row mod 2 =? 0) then num_row - 1
    else num_row in
  Ok (slice_rows None (Some num_row) text).

(** [data_post_process].  [text] is [data['text']], [difficulties] is
    [data_sampler_state_dict['current_difficulties']]; the result is the
    new [data['text']] and [args] after the assignment to
    [data_efficiency_curriculum_learning_seqlen_type]. *)
Definition data_post_process (args : Args) (text : tensor2 Z)
    (difficulties : gmap string Z) : result (tensor2 Z * Args) :=
  if data_efficiency_curriculum_learning args then
    match difficulties !! "seqlen_truncate"%string with
    | Some current_seqlen =>
        let args := set_seqlen_type (Some seqlen_truncate) args in
        if current_seqlen <? seq_length args
        then Ok (slice_cols None (Some (current_seqlen + 1)) text, args)
        else Ok (text, args)
    | None =>
        match difficulties !! "seqlen_reshape"%string with
        | Some current_seqlen =>
            let args := set_seqlen_type (Some seqlen_reshape) args in
            if current_seqlen <? seq_length args
            then text ← reshape_text current_seqlen text; Ok (text, args)
            else Ok (text, args)
        | None => Ok (text, set_seqlen_type None args)
        end
    end
  else Ok (text, args).

(** ** The tensor runtime and the model *)

(** The float tensors the model produces (hidden states, logits,
    per-token losses) and the torch and Megatron operations this file
    calls on them.  [tflat t] is [t.float().view(-1)], [tshape t] is
    [t.size()], [tdiv t c] is [t / c]; the softmaxes are taken over
    [dim=2] and [kl_div_batchmean] is
    [nn.KLDivLoss(reduction='batchmean')].  [dp_average] is the
    data-parallel all-reduce average of one scalar. *)
Class TensorRuntime : Type := {
  hidden : Type;
  tensorN : Type;
  weight : Type;
  tflat : tensorN -> list scalar;
  tshape : tensorN -> list nat;
  tdiv : tensorN -> scalar -> tensorN;
  log_softmax : tensorN -> tensorN;
  softmax : tensorN -> tensorN;
  kl_div_batchmean : tensorN -> tensorN -> scalar;
  post_language_model_processing :
    hidden -> option (tensor2 Z) -> weight -> bool -> bool -> tensorN;
  vocab_parallel_cross_entropy : tensorN -> tensor2 Z -> tensorN;
  dp_average : scalar -> scalar
}.

Section Model.
Context `{TensorRuntime}.

(** What a transformer layer returns: the hidden states alone, or a pair
    of hidden states and an auxiliary loss that may be [None]. *)
Inductive layer_output : Type :=
  | Plain (x : hidden)
  | WithLoss (x : hidden) (moe_loss : option scalar).

Definition layer : Type := hidden -> attn_mask -> layer_output.

(** The parts of a [GPTModel] the stages reach:
    [language_model.embedding], [language_model.encoder.layers],
    [language_model.encoder.final_layernorm],
    [language_model.embedding.word_embeddings.weight] and three flags. *)
Record GPTModel : Type := MkModel {
  embedding : tensor2 Z -> tensor2 Z -> hidden;
  layers : list layer;
  final_layernorm : hidden -> hidden;
  word_embeddings_weight : weight;
  parallel_output : bool;
  fp16_lm_cross_entropy : bool;
  training : bool
}.

(** [utils.make_viewless_tensor]: the same values in a tensor that is not
    a view; storage and autograd metadata are outside the model. *)
Definition make_viewless_tensor (x : hidden) : hidden := x.

(** [pre_process_func].  The 1-tuple [(attention_mask,)] is its element. *)
Definition pre_process_func (model : GPTModel)
    (model_inputs : tensor2 Z * tensor2 Z * attn_mask)
  : (hidden * list (option scalar)) * attn_mask :=
  let '(input_ids, position_ids, attention_mask) := model_inputs in
  let encoder_input := embedding model input_ids position_ids in
  let hidden_states := make_viewless_tensor encoder_input in
  ((hidden_states, []), attention_mask).

(** [get_layer] *)
Definition get_layer (model : GPTModel) (index : Z) : result layer :=
  py_index (layers model) index.

(** The loop of [forward] over the indices still to visit.  The source
    appends to [moe_losses] in place and returns that same list. *)
Fixpoint forward_loop (model : GPTModel) (indices : list Z) (x : hidden)
    (moe_losses : list (option scalar)) (attention_mask : attn_mask)
  : result (hidden * list (option scalar)) :=
  match indices with
  | [] => Ok (x, moe_losses)
  | index :: rest =>
      layer ← get_layer model index;
      match layer x attention_mask with
      | WithLoss x moe_loss =>
          forward_loop model rest x (moe_losses ++ [moe_loss]) attention_mask
      | Plain x =>
          forward_loop model rest x (moe_losses ++ [Some szero]) attention_mask
      end
  end.

(** [custom_forward(model, start, end)]: the returned [forward]. *)
Definition custom_forward (model : GPTModel) (start stop : Z)
  : hidden -> list (option scalar) -> attn_mask ->
    result (hidden * list (option scalar)) :=
  fun x moe_losses attention_mask =>
    forward_loop model (py_range start stop) x moe_losses attention_mask.

(** [post_process_func].  [passed_down] is a pair, so its length check
    holds by typing; [post_inputs] is a tuple of any length. *)
Definition post_process_func (model : GPTModel)
    (passed_down : hidden * list (option scalar))
    (post_inputs : list (tensor2 Z))
  : result (tensorN * list (option scalar)) :=
  let '(hidden_states, moe_losses) := passed_down in
  _ ← py_assert (length post_inputs =? 1)%nat;
  labels ← py_index post_inputs 0;
  let hidden_states := final_layernorm model hidden_states in
  let lm_output :=
    post_language_model_processing hidden_states (Some labels)
      (word_embeddings_weight model) (parallel_output model)
      (fp16_lm_cross_entropy model) in
  Ok (lm_output, moe_losses).

(** ** Loss aggregator *)

(** Element-wise product of two 1-D tensors with torch broadcasting: the
    sizes agree, or one of them is 1. *)
Definition tmul (a b : list scalar) : result (list scalar) :=
  if (length a =? length b)%nat then Ok (zip_with smul a b)
  else match a, b with
       | [x], _ => Ok (map (smul x) b)
       | _, [y] => Ok (map (fun x => smul x y) a)
       | _, _ => Raise RuntimeError
       end.

(** Modelled from the spec: [average_losses_across_data_parallel_group]
    (megatron/utils.py is not among the sources); each loss of the list is
    averaged across the data-parallel group. *)
Definition average_losses_across_data_parallel_group (losses : list scalar)
  : list scalar := map dp_average losses.

(** The masked mean of [loss_func]:
    [torch.sum(losses.view(-1) * loss_mask) / loss_mask.sum()]. *)
Definition primary_loss (loss_mask : tensor2 scalar) (output_tensor : tensorN)
  : result scalar :=
  let losses := tflat output_tensor in
  let loss_mask := flatten loss_mask in
  prod ← tmul losses loss_mask;
  Ok (sdiv (tsum prod) (tsum loss_mask)).

(** Python's builtin [max] of a list of integers. *)
Definition py_max (l : list Z) : result Z :=
  match l with
  | [] => Raise ValueError
  | x :: rest => Ok (foldl Z.max x rest)
  end.

(** [loss_func] *)
Definition loss_func (args : Args) (loss_mask : tensor2 scalar)
    (moe_loss mos_loss : scalar) (output_tensor : tensorN)
  : result (scalar * gmap string scalar) :=
  loss ← primary_loss loss_mask output_tensor;
  averaged_loss0 ← py_index (average_losses_across_data_parallel_group [loss]) 0;
  if mos args || kd args then
    let loss := sadd (sadd loss moe_loss) mos_loss in
    if mos args then
      Ok (loss, <["total loss"%string := loss]>
                (<["lm loss"%string := averaged_loss0]>
                (<["moe loss"%string := moe_loss]>
                {["mos loss"%string := mos_loss]})))
    else
      Ok (loss, <["total loss"%string := loss]>
                (<["lm loss"%string := averaged_loss0]>
                (<["moe loss"%string := moe_loss]>
                {["kd loss"%string := mos_loss]})))
  else
    m ← py_max (num_experts args);
    if m <=? 1 then Ok (loss, {["lm loss"%string := averaged_loss0]})
    else
      let loss := sadd loss moe_loss in
      Ok (loss, <["lm loss"%string := averaged_loss0]>
                {["moe loss"%string := moe_loss]}).

(** The auxiliary losses that are not [None]:
    the filtering loop of [flextrain_loss_func] and [forward_step]. *)
Definition non_none (other_losses : list (option scalar)) : list scalar :=
  omap id other_losses.

(** [flextrain_loss_func].  [model_output] is a pair, so its length check
    holds by typing. *)
Definition flextrain_loss_func (args : Args)
    (model_output : tensorN * list (option scalar))
    (loss_inputs : list (tensor2 scalar))
  : result (scalar * gmap string scalar) :=
  let '(output_tensor, other_losses) := model_output in
  let moe_losses := non_none other_losses in
  let moe_loss := smul (py_sum moe_losses) (moe_loss_coeff args) in
  let mos_loss := szero in
  loss_mask ← py_index loss_inputs 0;
  loss_func args loss_mask moe_loss mos_loss output_tensor.

(** ** The monolithic path *)

(** The encoder loop of the monolithic forward: every layer in order,
    keeping the auxiliary loss of each layer that reports one. *)
Fixpoint encoder_forward (ls : list layer) (x : hidden)
    (moe_losses : list (option scalar)) (attention_mask : attn_mask)
  : hidden * list (option scalar) :=
  match ls with
  | [] => (x, moe_losses)
  | l :: rest =>
      match l x attention_mask with
      | WithLoss x moe_loss =>
          encoder_forward rest x (moe_losses ++ [moe_loss]) attention_mask
      | Plain x => encoder_forward rest x moe_losses attention_mask
      end
  end.

(** Modelled from the spec: [GPTModel.forward] (megatron/model/gpt_model.py
    is not among the sources).  The model interface of the specification:
    an embedding step, the ordered layers, a final normalization and an
    output projection sharing the embedding weight, which yields
    per-token losses when labels are supplied and logits otherwise; the
    second component lists the auxiliary losses the layers reported. *)
Definition GPTModel_forward (model : GPTModel) (input_ids position_ids : tensor2 Z)
    (attention_mask : attn_mask) (labels : option (tensor2 Z))
  : tensorN * list (option scalar) :=
  let encoder_input := embedding model input_ids position_ids in
  let hidden_states := make_viewless_tensor encoder_input in
  let '(hidden_states, moe_losses) :=
    encoder_forward (layers model) hidden_states [] attention_mask in
  let hidden_states := final_layernorm model hidden_states in
  (post_language_model_processing hidden_states labels
     (word_embeddings_weight model) (parallel_output model)
     (fp16_lm_cross_entropy model),
   moe_losses).

(** The guard [args.curriculum_learning_legacy and
    args.curriculum_seqlen < args.seq_length]; comparing [None] with an
    integer raises [TypeError]. *)
Definition legacy_truncation (args : Args) : result (option Z) :=
  if curriculum_learning_legacy args then
    match curriculum_seqlen args with
    | None => Raise TypeError
    | Some cs => if cs <? seq_length args then Ok (Some cs) else Ok None
    end
  else Ok None.

(** [calculate_mos_loss].  [teacher_model] is [None] for a falsy
    argument.  Slicing a missing attention mask raises [TypeError]. *)
Definition calculate_mos_loss (args : Args) (stu_output : tensorN)
    (teacher_model : option GPTModel) (tokens position_ids : tensor2 Z)
    (attention_mask : attn_mask) : result scalar :=
  let mos_loss := szero in
  let beta := kd_beta_ce args in
  let kd_temp := kd_temp args in
  match teacher_model with
  | None => Ok mos_loss
  | Some teacher =>
      trunc ← legacy_truncation args;
      '(tokens, position_ids, attention_mask) ←
        match trunc with
        | Some curriculum_seqlen =>
            match attention_mask with
            | None => Raise TypeError
            | Some m =>
                Ok (slice_cols None (Some curriculum_seqlen) tokens,
                    slice_cols None (Some curriculum_seqlen) position_ids,
                    Some (slice_last2 curriculum_seqlen m))
            end
        | None => Ok (tokens, position_ids, attention_mask)
        end;
      let '(tea_output, tea_other_losses) :=
        GPTModel_forward teacher tokens position_ids attention_mask None in
      _ ← py_assert (bool_decide (tshape stu_output = tshape tea_output));
      let student_logits := log_softmax (tdiv stu_output kd_temp) in
      let tea_logits := softmax (tdiv tea_output kd_temp) in
      let mos_loss :=
        smul (smul kd_temp kd_temp) (kl_div_batchmean student_logits tea_logits) in
      let mos_loss := smul (sdiv mos_loss (of_Z (seq_length args))) beta in
      Ok mos_loss
  end.

(** [functools.partial(loss_func, loss_mask, moe_loss, mos_loss)] *)
Record loss_partial : Type := MkPartial {
  p_loss_mask : tensor2 scalar;
  p_moe_loss : scalar;
  p_mos_loss : scalar
}.

(** Calling the partial on the output tensor; [loss_func] reads [args]
    at that time. *)
Definition call_partial (args : Args) (p : loss_partial) (output_tensor : tensorN)
  : result (scalar * gmap string scalar) :=
  loss_func args (p_loss_mask p) (p_moe_loss p) (p_mos_loss p) output_tensor.

(** The assignments [forward_step] makes to [args] under
    [data_efficiency_curriculum_learning]. *)
Definition note_curriculum (args : Args) (tokens : tensor2 Z) : Args :=
  if data_efficiency_curriculum_learning args then
    let args := set_curriculum_seqlen (Some (Z.of_nat (ncols tokens))) args in
    match data_efficiency_curriculum_learning_seqlen_type args with
    | Some seqlen_reshape => set_numel (Some (numel tokens)) args
    | _ => args
    end
  else args.

(** [forward_step] from the batch [get_batch] returned on.
    [teacher_model] is [args.teacher_model], a list of models or [None].
    The result is the output tensor, the loss partial and [args] as the
    step leaves it. *)
Definition forward_step_on (args : Args) (teacher_model : option (list GPTModel))
    (model : GPTModel) (batch : PreparedBatch)
  : result (tensorN * loss_partial * Args) :=
  let '(MkBatch tokens labels loss_mask attention_mask position_ids) := batch in
  let args := note_curriculum args tokens in
  '(stu_output, output_tensor, other_losses) ←
    (if mos args || kd args then
       let '(stu_output, other_losses) :=
         GPTModel_forward model tokens position_ids attention_mask None in
       trunc ← legacy_truncation args;
       let labels :=
         match trunc with
         | Some cs => slice_cols None (Some cs) labels
         | None => labels
         end in
       Ok (Some stu_output,
           vocab_parallel_cross_entropy stu_output labels, other_losses)
     else
       let '(output_tensor, other_losses) :=
         GPTModel_forward model tokens position_ids attention_mask (Some labels) in
       Ok (None, output_tensor, other_losses));
  trunc ← legacy_truncation args;
  let loss_mask :=
    match trunc with
    | Some cs => slice_cols None (Some cs) loss_mask
    | None => loss_mask
    end in
  let moe_losses := non_none other_losses in
  let moe_loss := smul (py_sum moe_losses) (moe_loss_coeff args) in
  mos_loss ←
    match stu_output with
    | Some stu_output =>
        _ ← py_assert (training model);
        match teacher_model with
        | Some teachers =>
            if teacher_forward args then
              teacher ← py_index teachers 0;
              calculate_mos_loss args stu_output (Some teacher)
                tokens position_ids attention_mask
            else Ok szero
        | None => Ok szero
        end
    | None => Ok szero
    end;
  Ok (output_tensor, MkPartial loss_mask moe_loss mos_loss, args).

(** [forward_step] followed by the call of the returned partial on the
    output tensor, as the training loop does. *)
Definition forward_step_loss (args : Args) (teacher_model : option (list GPTModel))
    (model : GPTModel) (batch : PreparedBatch)
  : result (scalar * gmap string scalar) :=
  '(output_tensor, p, args) ← forward_step_on args teacher_model model batch;
  call_partial args p output_tensor.

(** The four stages composed in order on one batch. *)
Definition staged_loss (args : Args) (model : GPTModel) (batch : PreparedBatch)
  : result (scalar * gmap string scalar) :=
  let '(MkBatch tokens labels loss_mask attention_mask position_ids) := batch in
  let '((hidden_states, moe_losses), attention_mask) :=
    pre_process_func model (tokens, position_ids, attention_mask) in
  passed_down ←
    custom_forward model 0 (Z.of_nat (length (layers model)))
      hidden_states moe_losses attention_mask;
  model_output ← post_process_func model passed_down [labels];
  flextrain_loss_func args model_output [loss_mask].
End Model.

Section Steps.
Context `{MaskBuilder} `{TensorRuntime}.

(** [forward_step]: [text] is the broadcast [data_b['text']]. *)
Definition forward_step (args : Args) (mpu : mpu_state)
    (teacher_model : option (list GPTModel)) (model : GPTModel)
    (text : tensor2 Z) : result (tensorN * loss_partial * Args) :=
  batch ← get_batch args mpu text;
  forward_step_on args teacher_model model batch.
End Steps.

(** ** Notions used to state the properties *)

(** [torch.cat(parts, 1)] of a non-empty list of tensors. *)
Definition cat_cols {A : Type} (parts : list (tensor2 A)) : result (tensor2 A) :=
  match parts with
  | [] => Raise RuntimeError
  | p :: ps => Ok (foldl hcat p ps)
  end.

(** The columns rank [r] keeps when every rank keeps [sub] of them. *)
Definition rank_cols {A : Type} (sub : Z) (t : tensor2 A) (r : Z) : tensor2 A :=
  slice_cols (Some (r * sub)) (Some ((r + 1) * sub)) t.

(** The process-group state as rank [r] of its group sees it. *)
Definition on_rank (mpu : mpu_state) (r : Z) : mpu_state :=
  Mpu (sequence_parallel_world_size mpu) r
      (tensor_model_parallel_world_size mpu) r.


(** The auxiliary loss takes part in the total [loss_func] returns: in
    distillation mode, or with more than one expert. *)
Definition aux_loss_active (args : Args) : bool :=
  mos args || kd args ||
  match py_max (num_experts args) with
  | Ok m => 1 <? m
  | Raise _ => false
  end.

(** The rational value of a finite scalar. *)
Definition scalar_Q (a : scalar) : option Q :=
  match a with
  | Fin q => Some (this q)
  | _ => None
  end.

(** What a layer contributes to the auxiliary-loss list of the staged
    forward: its own loss, or a zero scalar when it reports none. *)
Definition staged_entry `{TensorRuntime} (o : layer_output) : option scalar :=
  match o with
  | WithLoss _ moe_loss => moe_loss
  | Plain _ => Some szero
  end.

(** ** Concrete collaborators, for evaluating the definitions *)

(** [tril(ones(s, s)) < 0.5]: position [j] is masked for row [i] when
    [i < j]. *)
Definition causal_mask (s : nat) : list (list bool) :=
  map (fun i => map (fun j => (i <? j)%nat) (seq 0 s)) (seq 0 s).

(** Modelled from the spec: [get_ltor_masks_and_position_ids]
    (megatron/utils.py is not among the sources) with the two reset flags
    off: a causal attention mask of shape [1, 1, s, s], skipped under
    [skip_mask]; a loss mask of ones, zeroed at end-of-document tokens
    under [eod_mask_loss]; position ids [0 .. s-1] on every row. *)
Definition basic_ltor_masks (tokens : tensor2 Z) (eod : Z)
    (reset_position_ids reset_attention_mask eod_mask_loss skip_mask : bool)
  : attn_mask * tensor2 scalar * tensor2 Z :=
  let s := ncols tokens in
  (if skip_mask then None else Some [[causal_mask s]],
   T2 (map (map (fun t => if eod_mask_loss && (t =? eod) then szero else sone))
           (rows tokens)) s,
   T2 (map (fun _ => map Z.of_nat (seq 0 s)) (rows tokens)) s).

Definition basic_masks : MaskBuilder :=
  {| get_ltor_masks_and_position_ids := basic_ltor_masks; tokenizer_eod := 0 |}.

(** A small runtime: every tensor is a matrix of scalars, the output
    heads and softmaxes are identities, and the divergence is 0 on equal
    tensors and 1 otherwise (a divergence vanishes exactly on equal
    distributions).  The data-parallel group has one member. *)
Definition matrix_runtime : TensorRuntime :=
  {| hidden := tensor2 scalar;
     tensorN := tensor2 scalar;
     weight := unit;
     tflat := flatten;
     tshape := fun t => [nrows t; ncols t];
     tdiv := fun t c => T2 (map (map (fun x => sdiv x c)) (rows t)) (ncols t);
     log_softmax := fun t => t;
     softmax := fun t => t;
     kl_div_batchmean := fun s t =>
       if bool_decide (flatten s = flatten t) then szero else sone;
     post_language_model_processing := fun h _ _ _ _ => h;
     vocab_parallel_cross_entropy := fun t _ => t;
     dp_average := fun x => x |}.

(** Token ids as floats: the embedding of the small models. *)
Definition embed_ids (input_ids position_ids : tensor2 Z) : tensor2 scalar :=
  T2 (map (map of_Z) (rows input_ids)) (ncols input_ids).

(** A layer without auxiliary loss, and one that reports the loss [c]. *)
Definition dense_layer : @layer matrix_runtime := fun x _ => Plain x.

Definition moe_layer (c : scalar) : @layer matrix_runtime :=
  fun x _ => WithLoss x (Some c).

Definition small_model (ls : list (@layer matrix_runtime)) : @GPTModel matrix_runtime :=
  {| embedding := embed_ids : _ -> _ -> @hidden matrix_runtime;
     layers := ls;
     final_layernorm := fun x => x;
     word_embeddings_weight := tt : @weight matrix_runtime;
     parallel_output := true;
     fp16_lm_cross_entropy := false;
     training := true |}.

(** A layer that adds 1 to every hidden value and reports no loss. *)
Definition shift_layer : @layer matrix_runtime :=
  fun (x : tensor2 scalar) _ =>
    @Plain matrix_runtime (T2 (map (map (sadd sone)) (rows x)) (ncols x)).

(** Configurations that differ in the options the properties depend on;
    the other options are off and every coefficient is 1. *)
Definition make_args (sequence_parallel data_efficiency legacy : bool)
    (seq_length : Z) (curriculum_seqlen : option Z) (mos kd teacher_forward : bool)
    (num_experts : list Z) : Args :=
  {| use_flash_attn := false; use_flash_attn_triton := false;
     reset_position_ids := false; reset_attention_mask := false;
     eod_mask_loss := false; sequence_parallel := sequence_parallel;
     seq_length := seq_length;
     data_efficiency_curriculum_learning := data_efficiency;
     data_efficiency_curriculum_learning_seqlen_type := None;
     data_efficiency_curriculum_learning_numel := None;
     curriculum_learning_legacy := legacy;
     curriculum_seqlen := curriculum_seqlen;
     mos := mos; kd := kd; num_experts := num_experts;
     moe_loss_coeff := sone; kd_alpha_ce := sone; kd_beta_ce := sone;
     kd_temp := sone; teacher_forward := teacher_forward |}.

(** Every option off, one expert. *)
Definition plain_args : Args :=
  make_args false false false 4 None false false false [1].

(** Tensor-parallel-based sequence parallelism. *)
Definition megatron_sp_args : Args :=
  make_args true false false 4 None false false false [1].

(** Data-efficiency curriculum learning with a maximum length of 4. *)
Definition curriculum_args : Args :=
  make_args false true false 4 None false false false [1].

(** Legacy curriculum learning at length 1 of 2. *)
Definition legacy_args : Args :=
  make_args false false true 2 (Some 1) false false false [1].

(** Knowledge distillation with a teacher forward. *)
Definition kd_args : Args :=
  make_args false false false 2 None false true true [1].

(** Mixture of experts, no distillation. *)
Definition moe_args : Args :=
  make_args false false false 2 None false false false [2].

(** A batch of one row of two tokens. *)
Definition small_batch : PreparedBatch :=
  MkBatch (T2 [[1; 2]] 2) (T2 [[2; 3]] 2) (T2 [[sone; sone]] 2) None
          (T2 [[0; 1]] 2).

(** ** Further notions and configurations *)

(** A scalar that is neither infinite nor NaN. *)
Definition finite (a : scalar) : Prop := exists q, a = Fin q.


(** The entry at row [r], column [j] of a 2-D tensor, if there is one. *)
Definition entry {A : Type} (t : tensor2 A) (r j : nat) : option A :=
  rows t !! r ≫= fun row => row !! j.

(** The row count [data_post_process] keeps: an odd count above 1 is
    lowered by one. *)
Definition even_cap (n : Z) : Z :=
  if (1 <? n) && negb (n mod 2 =? 0) then n - 1 else n.

(** [args] with another [kd_alpha_ce]. *)
Definition set_kd_alpha_ce (v : scalar) (a : Args) : Args :=
  MkArgs (use_flash_attn a) (use_flash_attn_triton a) (reset_position_ids a)
    (reset_attention_mask a) (eod_mask_loss a) (sequence_parallel a)
    (seq_length a) (data_efficiency_curriculum_learning a)
    (data_efficiency_curriculum_learning_seqlen_type a)
    (data_efficiency_curriculum_learning_numel a)
    (curriculum_learning_legacy a) (curriculum_seqlen a) (mos a) (kd a)
    (num_experts a) (moe_loss_coeff a) v (kd_beta_ce a)
    (kd_temp a) (teacher_forward a).

(** [a < b] on floats: false whenever NaN is involved. *)
Definition slt (a b : scalar) : bool :=
  match a, b with
  | NaN, _ | _, NaN => false
  | Fin x, Fin y => match (x ?= y)%Qc with Lt => true | _ => false end
  | NInf, NInf => false
  | NInf, _ => true
  | _, NInf => false
  | PInf, _ => false
  | _, PInf => true
  end.

(** [torch.tril(torch.ones((s, s)))] *)
Definition tril_ones (s : nat) : list (list scalar) :=
  map (fun i => map (fun j => if (j <=? i)%nat then sone else szero) (seq 0 s))
      (seq 0 s).

(** A boolean tensor converted by [.half()] or [.bfloat16()], and a float
    tensor converted by [.to(torch.bool)]: zero is [False], anything else
    [True]. *)
Definition bool_to_float (b : bool) : scalar := if b then sone else szero.

Definition float_to_bool (a : scalar) : bool := negb (bool_decide (a = szero)).

(** The attention mask [model_provider] precomputes into [args.attn_mask]
    on the pipeline branch, of shape [1, 1, seq_length, seq_length];
    [torch.ones] refuses a negative size. *)
Definition precomputed_attn_mask (seq_length : Z) (fp16 bf16 : bool)
  : result (tensor4 bool) :=
  if seq_length <? 0 then Raise RuntimeError else
  let attention_mask := tril_ones (Z.to_nat seq_length) in
  let attention_mask :=
    map (map (fun x => slt x (Fin (Q2Qc (1 # 2))))) attention_mask in
  if fp16 then
    Ok [[map (map float_to_bool) (map (map bool_to_float) attention_mask)]]
  else if bf16 then
    Ok [[map (map float_to_bool) (map (map bool_to_float) attention_mask)]]
  else Ok [[attention_mask]].

(** The legacy curriculum flag without a [curriculum_seqlen]. *)
Definition legacy_unset_args : Args :=
  make_args false false true 2 None false false false [1].

(** No entry in [num_experts]. *)
Definition no_experts_args : Args :=
  make_args false false false 2 None false false false [].

(** Data-efficiency and legacy curriculum together, with a configured
    [curriculum_seqlen] of 1 and a maximum length of 4. *)
Definition curriculum_legacy_args : Args :=
  make_args false true true 4 (Some 1) false false false [1].

(** A model outside training mode. *)
Definition eval_model (ls : list (@layer matrix_runtime)) : @GPTModel matrix_runtime :=
  {| embedding := embed_ids : _ -> _ -> @hidden matrix_runtime;
     layers := ls;
     final_layernorm := fun x => x;
     word_embeddings_weight := tt : @weight matrix_runtime;
     parallel_output := true;
     fp16_lm_cross_entropy := false;
     training := false |}.

(** Closes the membership goals about the metrics of [loss_func]. *)
Ltac loss_metrics :=
  repeat match goal with
  | |- _ <-> _ => split
  | |- is_Some _ => eexists; reflexivity
  | |- is_Some _ -> _ =>
      let x := fresh "x" in let Hx := fresh "Hx" in
      intros [x Hx]; first [discriminate Hx | reflexivity | split; reflexivity]
  | |- true = true -> _ => intros _
  | |- true = false -> _ => discriminate
  | |- false = true -> _ => discriminate
  | |- true = true => reflexivity
  end.

(** * Properties *)

(** ** Slices *)

Lemma norm_bound_range (n i : Z) : 0 <= n -> 0 <= norm_bound n i <= n.
Proof. unfold norm_bound. destruct (i <? 0) eqn:E; lia. Qed.

Lemma slice_lo_range (n : Z) (lo : option Z) : 0 <= n -> 0 <= slice_lo n lo <= n.
Proof. destruct lo; simpl; [apply norm_bound_range | lia]. Qed.

Lemma slice_hi_range (n : Z) (hi : option Z) : 0 <= n -> 0 <= slice_hi n hi <= n.
Proof. destruct hi; simpl; [apply norm_bound_range | lia]. Qed.

Lemma py_slice_length {A : Type} (lo hi : option Z) (l : list A) :
  length (py_slice lo hi l) = slice_len lo hi (length l).
Proof.
  unfold py_slice, slice_len.
  pose proof (slice_lo_range (Z.of_nat (length l)) lo ltac:(lia)).
  pose proof (slice_hi_range (Z.of_nat (length l)) hi ltac:(lia)).
  rewrite length_take, length_drop. apply Nat.min_l. lia.
Qed.

Lemma py_slice_between {A : Type} (lo hi : Z) (l : list A) :
  0 <= lo <= hi -> hi <= Z.of_nat (length l) ->
  py_slice (Some lo) (Some hi) l = take (Z.to_nat (hi - lo)) (drop (Z.to_nat lo) l).
Proof.
  intros Hlo Hhi. unfold py_slice, slice_hi, slice_lo, norm_bound.
  destruct (lo <? 0) eqn:E1; [lia |]. destruct (hi <? 0) eqn:E2; [lia |].
  rewrite !Z.min_l by lia. reflexivity.
Qed.

Lemma py_slice_prefix {A : Type} (hi : Z) (l : list A) :
  0 <= hi -> py_slice None (Some hi) l = take (Z.to_nat hi) l.
Proof.
  intros Hhi. unfold py_slice, slice_hi, slice_lo, norm_bound.
  destruct (hi <? 0) eqn:E; [lia |]. rewrite Z.sub_0_r.
  change (Z.to_nat 0) with 0%nat. rewrite drop_0.
  destruct (Z.le_gt_cases hi (Z.of_nat (length l))).
  - rewrite Z.min_l by lia. reflexivity.
  - rewrite Z.min_r by lia. rewrite Nat2Z.id.
    rewrite (take_ge l (length l)) by lia.
    rewrite (take_ge l (Z.to_nat hi)) by lia. reflexivity.
Qed.

Lemma slice_len_between (lo hi : Z) (n : nat) :
  0 <= lo <= hi -> hi <= Z.of_nat n ->
  slice_len (Some lo) (Some hi) n = Z.to_nat (hi - lo).
Proof.
  intros Hlo Hhi. unfold slice_len, slice_hi, slice_lo, norm_bound.
  destruct (lo <? 0) eqn:E1; [lia |]. destruct (hi <? 0) eqn:E2; [lia |].
  rewrite !Z.min_l by lia. reflexivity.
Qed.

Lemma wf2_slice_cols {A : Type} (lo hi : option Z) (t : tensor2 A) :
  wf2 t -> wf2 (slice_cols lo hi t).
Proof.
  unfold wf2, slice_cols. simpl. intros Hwf.
  apply Forall_map. eapply Forall_impl; [exact Hwf |].
  simpl. intros r Hr. rewrite py_slice_length, Hr. reflexivity.
Qed.

Lemma py_range_snoc (k : nat) :
  py_range 0 (Z.of_nat (S k)) = py_range 0 (Z.of_nat k) ++ [Z.of_nat k].
Proof.
  unfold py_range. rewrite !Z.sub_0_r, !Nat2Z.id.
  rewrite seq_S, map_app. reflexivity.
Qed.

Lemma py_range_length (start stop : Z) :
  length (py_range start stop) = Z.to_nat (stop - start).
Proof. unfold py_range. rewrite length_map, length_seq. reflexivity. Qed.

(** ** Batch builder *)

Section BatchBuilderFacts.
Context `{MaskBuilder}.

Lemma get_batch_ok (args : Args) (mpu : mpu_state) (text : tensor2 Z) :
  effective_world_size args mpu <> 0 ->
  Z.of_nat (ncols (slice_cols None (Some (-1)) text))
    mod effective_world_size args mpu = 0 ->
  let tokens := slice_cols None (Some (-1)) text in
  let masks :=
    get_ltor_masks_and_position_ids tokens tokenizer_eod
      (reset_position_ids args) (reset_attention_mask args)
      (eod_mask_loss args)
      (use_flash_attn args || use_flash_attn_triton args) in
  let sub := Z.of_nat (ncols tokens) / effective_world_size args mpu in
  let lo := effective_rank args mpu * sub in
  let hi := (effective_rank args mpu + 1) * sub in
  get_batch args mpu text =
  Ok (MkBatch (slice_cols (Some lo) (Some hi) tokens)
        (if 1 <? sequence_parallel_world_size mpu
         then slice_cols (Some lo) (Some hi) (slice_cols (Some 1) None text)
         else slice_cols (Some 1) None text)
        masks.1.2 masks.1.1
        (slice_cols (Some lo) (Some hi) masks.2)).
Proof.
  intros HW Hmod. cbv zeta. unfold get_batch.
  destruct (get_ltor_masks_and_position_ids _ _ _ _ _ _) as [[am lm] pos].
  apply Z.eqb_neq in HW. rewrite HW.
  apply Z.eqb_eq in Hmod. rewrite Hmod. reflexivity.
Qed.

(** C9: with a sequence length that the effective sequence-parallel world
    size [W] does not divide, [get_batch] raises the assertion error and
    returns no batch; with a sequence length that [W] divides it returns
    a batch. *)
Theorem get_batch_divisibility (args : Args) (mpu : mpu_state) (text : tensor2 Z) :
  effective_world_size args mpu <> 0 ->
  let seq := Z.of_nat (ncols (slice_cols None (Some (-1)) text)) in
  (seq mod effective_world_size args mpu <> 0 ->
   get_batch args mpu text = Raise AssertionError) /\
  (seq mod effective_world_size args mpu = 0 ->
   exists batch, get_batch args mpu text = Ok batch).
Proof.
  intros HW seq. split.
  - intros Hmod. unfold get_batch.
    destruct (get_ltor_masks_and_position_ids _ _ _ _ _ _) as [[am lm] pos].
    apply Z.eqb_neq in HW. rewrite HW.
    apply Z.eqb_neq in Hmod. fold seq. rewrite Hmod. reflexivity.
  - intros Hmod. eexists. apply get_batch_ok; assumption.
Qed.

(** C7: [get_batch] slices the labels to this rank's sub-range exactly
    when the dedicated sequence-parallel group has more than one member;
    with the tensor-parallel-based sequence parallelism (flag set,
    dedicated group of size 1) tokens and position ids are sliced and the
    labels keep the full sequence width. *)
Theorem get_batch_label_slicing (args : Args) (mpu : mpu_state)
    (text : tensor2 Z) (batch : PreparedBatch) :
  get_batch args mpu text = Ok batch ->
  let tokens := slice_cols None (Some (-1)) text in
  let labels := slice_cols (Some 1) None text in
  let position_ids :=
    (get_ltor_masks_and_position_ids tokens tokenizer_eod
       (reset_position_ids args) (reset_attention_mask args)
       (eod_mask_loss args)
       (use_flash_attn args || use_flash_attn_triton args)).2 in
  let sub := Z.of_nat (ncols tokens) / effective_world_size args mpu in
  let lo := effective_rank args mpu * sub in
  let hi := (effective_rank args mpu + 1) * sub in
  b_tokens batch = slice_cols (Some lo) (Some hi) tokens /\
  b_position_ids batch = slice_cols (Some lo) (Some hi) position_ids /\
  (1 < sequence_parallel_world_size mpu ->
   b_labels batch = slice_cols (Some lo) (Some hi) labels) /\
  (sequence_parallel_world_size mpu <= 1 -> b_labels batch = labels) /\
  (sequence_parallel args = true -> sequence_parallel_world_size mpu = 1 ->
   lo = tensor_model_parallel_rank mpu *
        (Z.of_nat (ncols tokens) / tensor_model_parallel_world_size mpu) /\
   b_labels batch = labels /\ ncols (b_labels batch) = ncols labels).
Proof.
  intros Hget. cbv zeta. unfold get_batch in Hget.
  destruct (get_ltor_masks_and_position_ids _ _ _ _ _ _) as [[am lm] pos].
  destruct (effective_world_size args mpu =? 0); [discriminate |].
  destruct (_ mod _ =? 0); [| discriminate].
  simpl in Hget. injection Hget as <-. simpl.
  split; [reflexivity |]. split; [reflexivity |].
  split; [| split].
  - intros Hgt. apply Z.ltb_lt in Hgt. rewrite Hgt. reflexivity.
  - intros Hle. destruct (1 <? _) eqn:E; [apply Z.ltb_lt in E; lia | reflexivity].
  - intros Hsp Hone. unfold effective_rank, effective_world_size.
    rewrite Hsp, Hone. simpl. auto.
Qed.
End BatchBuilderFacts.

(** ** Reassembling the column slices of the ranks *)

Section Reassemble.
Context {A : Type}.

Lemma hcat_adjacent (t : tensor2 A) (a b : Z) :
  wf2 t -> 0 <= a <= b -> b <= Z.of_nat (ncols t) ->
  hcat (slice_cols (Some 0) (Some a) t) (slice_cols (Some a) (Some b) t) =
  slice_cols (Some 0) (Some b) t.
Proof.
  intros Hwf Ha Hb. unfold hcat, slice_cols. simpl. f_equal.
  - rewrite zip_with_fmap_l, zip_with_fmap_r, zip_with_diag.
    apply map_ext_Forall. eapply Forall_impl; [exact Hwf |].
    simpl. intros r Hr.
    rewrite !py_slice_between by lia.
    change (Z.to_nat 0) with 0%nat. rewrite !drop_0, !Z.sub_0_r.
    rewrite take_take_drop. f_equal. lia.
  - rewrite !slice_len_between by lia. lia.
Qed.

Lemma slice_cols_all (t : tensor2 A) :
  wf2 t -> slice_cols (Some 0) (Some (Z.of_nat (ncols t))) t = t.
Proof.
  intros Hwf. destruct t as [rs n]. unfold slice_cols, wf2 in *. simpl in *.
  f_equal.
  - rewrite <- (map_id rs) at 2.
    apply map_ext_Forall. eapply Forall_impl; [exact Hwf |].
    simpl. intros r Hr.
    rewrite py_slice_between by lia.
    change (Z.to_nat 0) with 0%nat. rewrite drop_0, take_ge by lia. reflexivity.
  - rewrite slice_len_between by lia. lia.
Qed.

Lemma cat_cols_snoc (ps : list (tensor2 A)) (p q : tensor2 A) :
  cat_cols ps = Ok p -> cat_cols (ps ++ [q]) = Ok (hcat p q).
Proof.
  destruct ps as [| p0 ps]; simpl; [discriminate |].
  intros [= <-]. rewrite foldl_snoc. reflexivity.
Qed.

Lemma cat_rank_cols_prefix (sub : Z) (t : tensor2 A) (k : nat) :
  wf2 t -> 0 <= sub -> Z.of_nat (S k) * sub <= Z.of_nat (ncols t) ->
  cat_cols (map (rank_cols sub t) (py_range 0 (Z.of_nat (S k)))) =
  Ok (slice_cols (Some 0) (Some (Z.of_nat (S k) * sub)) t).
Proof.
  intros Hwf Hsub. induction k as [| k IH]; intros Hle.
  - simpl. unfold rank_cols. repeat f_equal.
  - rewrite py_range_snoc, map_app. simpl map.
    erewrite cat_cols_snoc; [| apply IH; nia].
    unfold rank_cols. f_equal.
    replace ((Z.of_nat (S k) + 1) * sub) with (Z.of_nat (S (S k)) * sub) by lia.
    apply hcat_adjacent; [assumption | nia | nia].
Qed.

(** The slices of all [W] ranks, concatenated in rank order, give back
    the tensor. *)
Lemma cat_rank_cols_all (W : Z) (t : tensor2 A) :
  wf2 t -> 0 < W -> Z.of_nat (ncols t) mod W = 0 ->
  cat_cols (map (rank_cols (Z.of_nat (ncols t) / W) t) (py_range 0 W)) = Ok t.
Proof.
  intros Hwf HW Hmod.
  assert (Hn : Z.of_nat (ncols t) = W * (Z.of_nat (ncols t) / W))
    by (apply Z.div_exact; lia).
  set (sub := Z.of_nat (ncols t) / W) in *.
  assert (Hsub : 0 <= sub) by (apply Z.div_pos; lia).
  destruct (Z.to_nat W) as [| k] eqn:Ek; [lia |].
  assert (HWk : W = Z.of_nat (S k)) by lia.
  rewrite HWk, cat_rank_cols_prefix by (try assumption; lia).
  rewrite <- HWk, <- Hn. f_equal. apply slice_cols_all. assumption.
Qed.
End Reassemble.

Lemma mapM_result_map {A B : Type} (f : A -> result B) (g : A -> B) (l : list A) :
  Forall (fun x => f x = Ok (g x)) l -> mapM f l = Ok (map g l).
Proof.
  induction 1 as [| x l Hx _ IH]; [reflexivity |].
  simpl. rewrite Hx. simpl. rewrite IH. reflexivity.
Qed.

Lemma py_range_bounds (start stop r : Z) :
  r ∈ py_range start stop -> start <= r < stop.
Proof.
  unfold py_range. intros Hin. apply list_elem_of_fmap in Hin as (i & -> & Hi).
  apply list_elem_of_In, in_seq in Hi. lia.
Qed.

(** C2: when the world size [W] divides the sequence length, rank [R]
    receives the columns [R*seq/W .. (R+1)*seq/W) of tokens and position
    ids, and concatenating the slices of ranks [0 .. W-1] in rank order
    gives back the unsliced tokens and position ids; for tokens
    [[1,2,3,4]] and [W = 2], rank 0 gets [[1,2]] and rank 1 gets
    [[3,4]]. *)
Theorem get_batch_slices_reassemble :
  (forall (MB : MaskBuilder) (args : Args) (mpu : mpu_state) (text : tensor2 Z) (W : Z),
    let tokens := slice_cols None (Some (-1)) text in
    let position_ids :=
      (get_ltor_masks_and_position_ids tokens tokenizer_eod
         (reset_position_ids args) (reset_attention_mask args)
         (eod_mask_loss args)
         (use_flash_attn args || use_flash_attn_triton args)).2 in
    let sub := Z.of_nat (ncols tokens) / W in
    wf2 text ->
    wf2 position_ids -> ncols position_ids = ncols tokens ->
    effective_world_size args mpu = W -> 0 < W ->
    Z.of_nat (ncols tokens) mod W = 0 ->
    exists batches,
      mapM (fun R => get_batch args (on_rank mpu R) text) (py_range 0 W)
        = Ok batches /\
      (forall (R : nat) batch, batches !! R = Some batch ->
         b_tokens batch =
           slice_cols (Some (Z.of_nat R * sub)) (Some ((Z.of_nat R + 1) * sub)) tokens /\
         b_position_ids batch =
           slice_cols (Some (Z.of_nat R * sub)) (Some ((Z.of_nat R + 1) * sub))
             position_ids) /\
      length batches = Z.to_nat W /\
      cat_cols (map b_tokens batches) = Ok tokens /\
      cat_cols (map b_position_ids batches) = Ok position_ids) /\
  (forall (MB : MaskBuilder) (args : Args) (mpu : mpu_state),
    effective_world_size args mpu = 2 ->
    exists b0 b1,
      get_batch args (on_rank mpu 0) (T2 [[1; 2; 3; 4; 5]] 5) = Ok b0 /\
      get_batch args (on_rank mpu 1) (T2 [[1; 2; 3; 4; 5]] 5) = Ok b1 /\
      b_tokens b0 = T2 [[1; 2]] 2 /\ b_tokens b1 = T2 [[3; 4]] 2 /\
      cat_cols [b_tokens b0; b_tokens b1] = Ok (T2 [[1; 2; 3; 4]] 4)).
Proof.
  split.
  - intros MB args mpu text W tokens position_ids sub Hwf Hwfp Hcols HW Hpos Hmod.
    assert (Hrank : forall R, effective_rank args (on_rank mpu R) = R)
      by (intros R; unfold effective_rank; destruct (sequence_parallel args); reflexivity).
    assert (Hsize : forall R, effective_world_size args (on_rank mpu R) = W)
      by (intros R; rewrite <- HW; unfold effective_world_size;
          destruct (sequence_parallel args); reflexivity).
    pose (part := fun R : Z =>
      MkBatch (rank_cols sub tokens R)
        (if 1 <? sequence_parallel_world_size mpu
         then rank_cols sub (slice_cols (Some 1) None text) R
         else slice_cols (Some 1) None text)
        (get_ltor_masks_and_position_ids tokens tokenizer_eod
           (reset_position_ids args) (reset_attention_mask args)
           (eod_mask_loss args)
           (use_flash_attn args || use_flash_attn_triton args)).1.2
        (get_ltor_masks_and_position_ids tokens tokenizer_eod
           (reset_position_ids args) (reset_attention_mask args)
           (eod_mask_loss args)
           (use_flash_attn args || use_flash_attn_triton args)).1.1
        (rank_cols sub position_ids R)).
    exists (map part (py_range 0 W)). split; [| split; [| split; [| split]]].
    + apply mapM_result_map, Forall_forall. intros R _.
      pose proof (get_batch_ok args (on_rank mpu R) text) as Hok.
      cbv zeta in Hok. rewrite Hsize, Hrank in Hok.
      apply Hok; [lia | exact Hmod].
    + intros R batch Hlook. rewrite list_lookup_fmap in Hlook.
      destruct (py_range 0 W !! R) as [r |] eqn:Er; [| discriminate].
      injection Hlook as <-. unfold py_range in Er.
      rewrite list_lookup_fmap in Er.
      destruct (seq 0 (Z.to_nat (W - 0)) !! R) as [i |] eqn:Ei; [| discriminate].
      apply lookup_seq in Ei as [-> _]. injection Er as <-.
      simpl. unfold rank_cols. rewrite !Z.add_0_l. auto.
    + rewrite length_map, py_range_length. f_equal. lia.
    + rewrite map_map. simpl.
      apply cat_rank_cols_all; [apply wf2_slice_cols; assumption | lia | exact Hmod].
    + rewrite map_map. simpl. unfold sub. rewrite <- Hcols.
      apply cat_rank_cols_all; [assumption | lia |]. rewrite Hcols. exact Hmod.
  - intros MB args mpu HW.
    assert (Hrank : forall R, effective_rank args (on_rank mpu R) = R)
      by (intros R; unfold effective_rank; destruct (sequence_parallel args); reflexivity).
    assert (Hsize : forall R, effective_world_size args (on_rank mpu R) = 2)
      by (intros R; rewrite <- HW; unfold effective_world_size;
          destruct (sequence_parallel args); reflexivity).
    pose proof (get_batch_ok args (on_rank mpu 0) (T2 [[1; 2; 3; 4; 5]] 5)) as H0.
    pose proof (get_batch_ok args (on_rank mpu 1) (T2 [[1; 2; 3; 4; 5]] 5)) as H1.
    cbv zeta in H0, H1. rewrite Hsize, Hrank in H0, H1.
    specialize (H0 ltac:(lia) eq_refl). specialize (H1 ltac:(lia) eq_refl).
    eexists _, _. split; [exact H0 |]. split; [exact H1 |].
    simpl. repeat split; reflexivity.
Qed.

(** ** Curriculum reshaping *)

Lemma flatten_length {A : Type} (t : tensor2 A) :
  wf2 t -> Z.of_nat (length (flatten t)) = numel t.
Proof.
  destruct t as [rs n]. unfold wf2, flatten, numel, nrows. simpl.
  induction 1 as [| r rs Hr _ IH]; simpl; [lia |].
  rewrite length_app. lia.
Qed.

Lemma chunk_rows_length {A : Type} (w n : nat) (l : list A) :
  length (chunk_rows w n l) = n.
Proof. revert l. induction n as [| n IH]; intros l; simpl; [| rewrite IH]; reflexivity. Qed.

Lemma chunk_rows_width {A : Type} (w n : nat) (l : list A) :
  (n * w <= length l)%nat -> Forall (fun r => length r = w) (chunk_rows w n l).
Proof.
  revert l. induction n as [| n IH]; intros l Hlen; simpl; constructor.
  - rewrite length_take. lia.
  - apply IH. rewrite length_drop. lia.
Qed.

Lemma chunk_rows_elem {A : Type} (w n : nat) (l r : list A) (x : A) :
  r ∈ chunk_rows w n l -> x ∈ r -> x ∈ l.
Proof.
  revert l. induction n as [| n IH]; intros l Hr Hx; simpl in Hr.
  - apply elem_of_nil in Hr. contradiction.
  - apply elem_of_cons in Hr as [-> | Hr].
    + eapply subseteq_take. exact Hx.
    + eapply subseteq_drop. eapply IH; eassumption.
Qed.

Lemma py_slice_subseteq {A : Type} (lo hi : option Z) (l : list A) :
  py_slice lo hi l ⊆ l.
Proof.
  unfold py_slice. etransitivity; [apply subseteq_take | apply subseteq_drop].
Qed.

Lemma elem_of_concat {A : Type} (x : A) (ls : list (list A)) :
  x ∈ concat ls <-> exists r, r ∈ ls /\ x ∈ r.
Proof.
  rewrite list_elem_of_In, in_concat. split.
  - intros (r & Hr & Hx). exists r. rewrite !list_elem_of_In. auto.
  - intros (r & Hr & Hx). exists r. rewrite <- !list_elem_of_In. auto.
Qed.

Lemma flatten_slice_cols_elem {A : Type} (lo hi : option Z) (t : tensor2 A) (x : A) :
  x ∈ flatten (slice_cols lo hi t) -> x ∈ flatten t.
Proof.
  unfold flatten, slice_cols. simpl. intros Hx.
  apply elem_of_concat in Hx as (r & Hr & Hx).
  apply list_elem_of_fmap in Hr as (r0 & -> & Hr0).
  apply elem_of_concat. exists r0. split; [assumption |].
  eapply py_slice_subseteq. exact Hx.
Qed.

Lemma ceil_div_bound (a w : Z) : 0 < w -> 0 <= a -> 
  0 <= ceil_div a w /\ ceil_div a w * w < a + w.
Proof.
  intros Hw Ha. unfold ceil_div.
  pose proof (Z.div_mod (- a) w ltac:(lia)).
  pose proof (Z.mod_pos_bound (- a) w Hw). split; nia.
Qed.

Lemma get_batch_divisibility_witness :
  @get_batch basic_masks plain_args (Mpu 2 0 1 0) (T2 [[1; 2; 3; 4]] 4)
    = Raise AssertionError /\
  exists batch,
    @get_batch basic_masks plain_args (Mpu 2 0 1 0) (T2 [[1; 2; 3; 4; 5]] 5)
      = Ok batch.
Proof.
  split.
  - apply (proj1 (@get_batch_divisibility basic_masks plain_args (Mpu 2 0 1 0)
                    (T2 [[1; 2; 3; 4]] 4) ltac:(vm_compute; discriminate))).
    vm_compute. discriminate.
  - apply (proj2 (@get_batch_divisibility basic_masks plain_args (Mpu 2 0 1 0)
                    (T2 [[1; 2; 3; 4; 5]] 5) ltac:(vm_compute; discriminate))).
    reflexivity.
Defined.

Lemma get_batch_label_slicing_witness :
  exists batch,
    @get_batch basic_masks megatron_sp_args (Mpu 1 0 2 1) (T2 [[1; 2; 3; 4; 5]] 5)
      = Ok batch /\
    b_tokens batch = T2 [[3; 4]] 2 /\
    b_position_ids batch = T2 [[2; 3]] 2 /\
    b_labels batch = T2 [[2; 3; 4; 5]] 4.
Proof.
  eexists. split; [reflexivity |].
  pose proof (@get_batch_label_slicing basic_masks megatron_sp_args (Mpu 1 0 2 1)
                (T2 [[1; 2; 3; 4; 5]] 5) _ eq_refl) as (Ht & Hp & _ & Hl & _).
  split; [exact Ht |]. split; [exact Hp |]. apply Hl. simpl. lia.
Defined.

Lemma get_batch_slices_reassemble_witness :
  exists batches,
    mapM (fun R => @get_batch basic_masks plain_args (on_rank (Mpu 2 0 1 0) R)
                     (T2 [[1; 2; 3; 4; 5]; [6; 7; 8; 9; 10]] 5))
         (py_range 0 2) = Ok batches /\
    cat_cols (map b_tokens batches) = Ok (T2 [[1; 2; 3; 4]; [6; 7; 8; 9]] 4) /\
    cat_cols (map b_position_ids batches) = Ok (T2 [[0; 1; 2; 3]; [0; 1; 2; 3]] 4).
Proof.
  destruct (proj1 get_batch_slices_reassemble basic_masks plain_args (Mpu 2 0 1 0)
              (T2 [[1; 2; 3; 4; 5]; [6; 7; 8; 9; 10]] 5) 2)
    as (batches & Hm & _ & _ & Ht & Hp).
  - repeat constructor.
  - repeat constructor.
  - reflexivity.
  - reflexivity.
  - lia.
  - reflexivity.
  - exists batches. split; [exact Hm |]. split; [exact Ht | exact Hp].
Defined.

Lemma reshape_text_spec (k : Z) (text : tensor2 Z) :
  wf2 text -> 0 <= k -> k + 1 <= Z.of_nat (ncols text) ->
  exists out,
    reshape_text k text = Ok out /\
    wf2 out /\ Z.of_nat (ncols out) = k + 1 /\
    (1 < Z.of_nat (nrows out) -> Z.of_nat (nrows out) mod 2 = 0) /\
    numel out < numel text + (k + 1) /\
    (forall x, x ∈ flatten out -> x ∈ flatten text).
Proof.
  intros Hwf Hk Hcols. unfold reshape_text.
  destruct (k + 1 =? 0) eqn:E; [lia |]. clear E.
  set (w := k + 1) in *.
  set (q := Z.of_nat (ncols text) / w).
  assert (Hq : 1 <= q) by (apply Z.div_le_lower_bound; lia).
  assert (Hqw : q * w <= Z.of_nat (ncols text))
    by (unfold q; rewrite Z.mul_comm; apply Z.mul_div_le; lia).
  set (head := slice_cols None (Some (q * w)) text).
  assert (Hhead_wf : wf2 head) by (apply wf2_slice_cols; assumption).
  assert (Hhead_cols : Z.of_nat (ncols head) = q * w).
  { unfold head, slice_cols, slice_len, slice_hi, slice_lo, norm_bound. simpl.
    destruct (q * w <? 0) eqn:E; lia. }
  assert (Hhead_numel : numel head = Z.of_nat (nrows text) * q * w).
  { unfold numel. rewrite Hhead_cols. unfold head, nrows, slice_cols. simpl.
    rewrite length_map. lia. }
  unfold view_rows.
  destruct (w <=? 0) eqn:E; [lia |]. clear E.
  assert (Hmod : numel head mod w = 0).
  { rewrite Hhead_numel. apply Z.mod_mul. lia. }
  rewrite Hmod. simpl negb. cbn iota.
  assert (Hdiv : numel head / w = Z.of_nat (nrows text) * q).
  { rewrite Hhead_numel. apply Z.div_mul. lia. }
  rewrite Hdiv. simpl.
  assert (Htail_cols : ncols (slice_cols (Some (- w)) None text) = Z.to_nat w).
  { unfold slice_cols, slice_len, slice_hi, slice_lo, norm_bound. simpl.
    destruct (- w <? 0) eqn:E; lia. }
  assert (Htail_wf : wf2 (slice_cols (Some (- w)) None text))
    by (apply wf2_slice_cols; assumption).
  unfold vcat. cbn [ncols]. rewrite Htail_cols, Nat.eqb_refl.
  set (tail := slice_cols (Some (- w)) None text) in *.
  cbn [mbind result_bind rows ncols].
  set (rows' := chunk_rows _ _ _ ++ rows tail).
  set (nr0 := Z.min (ceil_div (numel text) w) (Z.of_nat (nrows (T2 rows' (Z.to_nat w))))).
  set (nr := if (1 <? nr0) && negb (nr0 mod 2 =? 0) then nr0 - 1 else nr0).
  assert (Hnumel : 0 <= numel text) by (unfold numel; lia).
  destruct (ceil_div_bound (numel text) w ltac:(lia) Hnumel) as [Hc0 Hc1].
  assert (Hnr0 : 0 <= nr0 <= ceil_div (numel text) w) by (unfold nr0; lia).
  assert (Hnr0' : nr0 <= Z.of_nat (length rows')) by (unfold nr0, nrows; simpl; lia).
  assert (Hnr : 0 <= nr <= nr0).
  { unfold nr. destruct (1 <? nr0) eqn:E1; simpl; [| lia].
    apply Z.ltb_lt in E1. destruct (nr0 mod 2 =? 0); simpl; lia. }
  assert (Heven : 1 < nr -> nr mod 2 = 0).
  { unfold nr. destruct (1 <? nr0) eqn:E1; simpl.
    - destruct (nr0 mod 2 =? 0) eqn:E2; simpl.
      + intros _. apply Z.eqb_eq in E2. exact E2.
      + intros _. apply Z.eqb_neq in E2.
        pose proof (Z.mod_pos_bound nr0 2 ltac:(lia)).
        pose proof (Z.div_mod nr0 2 ltac:(lia)).
        replace (nr0 - 1) with ((nr0 / 2) * 2) by lia. apply Z.mod_mul. lia.
    - apply Z.ltb_ge in E1. lia. }
  assert (Hrows'_wf : Forall (fun r => length r = Z.to_nat w) rows').
  { unfold rows'. apply Forall_app. split.
    - apply chunk_rows_width.
      pose proof (flatten_length head Hhead_wf). nia.
    - unfold wf2 in Htail_wf. rewrite Htail_cols in Htail_wf. exact Htail_wf. }
  assert (Hout_rows : py_slice None (Some nr) rows' = take (Z.to_nat nr) rows')
    by (apply py_slice_prefix; lia).
  eexists. split; [reflexivity |].
  unfold slice_rows, wf2, nrows, numel, nrows. simpl. rewrite Hout_rows.
  assert (Hlen : Z.of_nat (length (take (Z.to_nat nr) rows')) = nr)
    by (rewrite length_take; lia).
  split; [apply Forall_take; exact Hrows'_wf |].
  split; [lia |].
  split; [rewrite Hlen; exact Heven |].
  split.
  { rewrite Hlen, Z2Nat.id by lia.
    assert (nr * w <= ceil_div (numel text) w * w)
      by (apply Z.mul_le_mono_nonneg_r; lia).
    unfold numel, nrows in *. lia. }
  intros x Hx. unfold flatten in Hx. simpl in Hx.
  apply elem_of_concat in Hx as (r & Hr & Hx).
  apply subseteq_take in Hr. unfold rows' in Hr.
  apply elem_of_app in Hr as [Hr | Hr].
  - eapply (flatten_slice_cols_elem None (Some (q * w))).
    eapply chunk_rows_elem; eassumption.
  - eapply (flatten_slice_cols_elem (Some (- w)) None).
    apply elem_of_concat. exists r. split; assumption.
Qed.

(** C4, as the code has it: in reshape mode on a well-formed batch with at
    least [current_seqlen + 1] columns, every output row has exactly
    [current_seqlen + 1] columns, the row count is even when greater than
    1, every output entry is an entry of the input, and the number of
    output entries stays below the input's plus [current_seqlen + 1]. *)
Theorem data_post_process_reshape (args : Args) (text : tensor2 Z)
    (difficulties : gmap string Z) (current_seqlen : Z) :
  data_efficiency_curriculum_learning args = true ->
  difficulties !! "seqlen_truncate"%string = None ->
  difficulties !! "seqlen_reshape"%string = Some current_seqlen ->
  current_seqlen < seq_length args ->
  wf2 text -> 0 <= current_seqlen ->
  current_seqlen + 1 <= Z.of_nat (ncols text) ->
  exists out,
    data_post_process args text difficulties =
      Ok (out, set_seqlen_type (Some seqlen_reshape) args) /\
    wf2 out /\ Z.of_nat (ncols out) = current_seqlen + 1 /\
    (1 < Z.of_nat (nrows out) -> Z.of_nat (nrows out) mod 2 = 0) /\
    numel out < numel text + (current_seqlen + 1) /\
    (forall x, x ∈ flatten out -> x ∈ flatten text).
Proof.
  intros Hde Htr Hre Hlt Hwf Hk Hcols.
  destruct (reshape_text_spec current_seqlen text Hwf Hk Hcols)
    as (out & Hout & Hprops).
  exists out. split; [| exact Hprops].
  unfold data_post_process. rewrite Hde, Htr, Hre.
  replace (seq_length (set_seqlen_type (Some seqlen_reshape) args))
    with (seq_length args) by reflexivity.
  apply Z.ltb_lt in Hlt. rewrite Hlt, Hout. reflexivity.
Qed.

Lemma data_post_process_reshape_witness :
  exists out,
    data_post_process curriculum_args (T2 [[1; 2; 3; 4; 5; 6; 7; 8; 9]] 9)
      {["seqlen_reshape"%string := 3]} =
      Ok (out, set_seqlen_type (Some seqlen_reshape) curriculum_args) /\
    wf2 out /\ Z.of_nat (ncols out) = 3 + 1 /\
    (1 < Z.of_nat (nrows out) -> Z.of_nat (nrows out) mod 2 = 0) /\
    numel out < numel (T2 [[1; 2; 3; 4; 5; 6; 7; 8; 9]] 9) + (3 + 1) /\
    (forall x, x ∈ flatten out -> x ∈ flatten (T2 [[1; 2; 3; 4; 5; 6; 7; 8; 9]] 9)).
Proof.
  apply (data_post_process_reshape curriculum_args
           (T2 [[1; 2; 3; 4; 5; 6; 7; 8; 9]] 9) {["seqlen_reshape"%string := 3]} 3).
  - reflexivity.
  - reflexivity.
  - reflexivity.
  - simpl. lia.
  - repeat constructor.
  - lia.
  - simpl. lia.
Defined.

(** C4 as stated fails: one row of five tokens reshaped at
    [current_seqlen = 2] (maximum 4) becomes two rows of three, six
    entries from five, the token 3 appearing in both rows. *)
Lemma data_post_process_reshape_grows :
  data_post_process curriculum_args (T2 [[1; 2; 3; 4; 5]] 5)
    {["seqlen_reshape"%string := 2]} =
    Ok (T2 [[1; 2; 3]; [3; 4; 5]] 3,
        set_seqlen_type (Some seqlen_reshape) curriculum_args) /\
  2 < seq_length curriculum_args /\
  ~ (numel (T2 [[1; 2; 3]; [3; 4; 5]] 3) <= numel (T2 [[1; 2; 3; 4; 5]] 5)).
Proof.
  split; [reflexivity |]. split; [simpl; lia |]. vm_compute. intros H. apply H. reflexivity.
Qed.

(** ** Scalars *)

Lemma sadd_zero_r (a : scalar) : sadd a szero = a.
Proof. destruct a; simpl; try reflexivity. rewrite Qcplus_0_r. reflexivity. Qed.


Lemma sadd_nan_l (a : scalar) : sadd NaN a = NaN.
Proof. reflexivity. Qed.



Lemma smul_zero_l (a : scalar) : smul szero a = szero \/ smul szero a = NaN.
Proof.
  destruct a; simpl; auto. left. unfold szero. f_equal. ring.
Qed.









(** ** Loss aggregator *)

Section LossFacts.
Context `{TensorRuntime}.

Lemma tmul_same_length (a b : list scalar) :
  length a = length b -> tmul a b = Ok (zip_with smul a b).
Proof. intros Hlen. unfold tmul. rewrite Hlen, Nat.eqb_refl. reflexivity. Qed.



Lemma loss_func_total (args : Args) (loss_mask : tensor2 scalar)
    (moe_loss mos_loss : scalar) (output_tensor : tensorN) (loss : scalar) :
  primary_loss loss_mask output_tensor = Ok loss ->
  mos args || kd args = true \/ num_experts args <> [] ->
  exists total metrics,
    loss_func args loss_mask moe_loss mos_loss output_tensor = Ok (total, metrics).
Proof.
  intros Hloss Hmode. unfold loss_func. rewrite Hloss. simpl.
  destruct (mos args || kd args) eqn:Ed.
  - destruct (mos args); eexists _, _; reflexivity.
  - destruct Hmode as [? | Hne]; [discriminate |].
    destruct (num_experts args) as [| e es]; [contradiction |]. simpl.
    destruct (foldl Z.max e es <=? 1); eexists _, _; reflexivity.
Qed.


(** C5: the metrics [loss_func] returns always hold ['lm loss']; they
    hold ['moe loss'] exactly when the auxiliary loss takes part in the
    total; ['mos loss'], ['kd loss'] and ['total loss'] appear only in
    distillation mode; without distillation and with at most one expert
    the metrics are exactly [{'lm loss': x}]. *)
Theorem loss_func_metrics (args : Args) (loss_mask : tensor2 scalar)
    (moe_loss mos_loss : scalar) (output_tensor : tensorN)
    (total : scalar) (metrics : gmap string scalar) :
  loss_func args loss_mask moe_loss mos_loss output_tensor = Ok (total, metrics) ->
  is_Some (metrics !! "lm loss"%string) /\
  (is_Some (metrics !! "moe loss"%string) <-> aux_loss_active args = true) /\
  (is_Some (metrics !! "mos loss"%string) -> mos args = true) /\
  (is_Some (metrics !! "kd loss"%string) -> mos args = false /\ kd args = true) /\
  (is_Some (metrics !! "total loss"%string) -> mos args || kd args = true) /\
  (mos args || kd args = false ->
   forall m, py_max (num_experts args) = Ok m -> m <= 1 ->
   exists loss,
     primary_loss loss_mask output_tensor = Ok loss /\
     total = loss /\
     metrics = {["lm loss"%string := dp_average loss]} /\
     metrics !! "moe loss"%string = None).
Proof.
  unfold loss_func, aux_loss_active.
  destruct (primary_loss loss_mask output_tensor) as [loss |]; [| discriminate].
  simpl. destruct (mos args) eqn:Emos; simpl.
  - intros [= <- <-]. split_and!; loss_metrics.
  - destruct (kd args) eqn:Ekd; simpl.
    + intros [= <- <-]. split_and!; loss_metrics.
    + destruct (py_max (num_experts args)) as [m |] eqn:Emax; [| discriminate].
      simpl. destruct (m <=? 1) eqn:Em.
      * intros [= <- <-]. apply Z.leb_le in Em. split_and!; loss_metrics.
        -- intros Hlt. apply Z.ltb_lt in Hlt. lia.
        -- intros _ m' [= <-] _. exists loss. auto.
      * intros [= <- <-]. apply Z.leb_gt in Em. split_and!; loss_metrics.
        -- intros _. apply Z.ltb_lt. lia.
        -- intros _. eexists. reflexivity.
        -- intros _ m' [= <-] Hle. lia.
Qed.

End LossFacts.


Lemma loss_func_metrics_witness :
  exists total metrics,
    @loss_func matrix_runtime plain_args (T2 [[sone; sone]] 2) szero szero
      (T2 [[of_Z 3; of_Z 5]] 2) = Ok (total, metrics) /\
    is_Some (metrics !! "lm loss"%string) /\
    metrics !! "moe loss"%string = None.
Proof.
  eexists _, _. split; [reflexivity |].
  pose proof (@loss_func_metrics matrix_runtime plain_args (T2 [[sone; sone]] 2)
                szero szero (T2 [[of_Z 3; of_Z 5]] 2) _ _ eq_refl)
    as (Hlm & _ & _ & _ & _ & Hplain).
  split; [exact Hlm |].
  destruct (Hplain eq_refl 1 eq_refl ltac:(lia)) as (loss & _ & _ & _ & Hmoe).
  exact Hmoe.
Defined.


(** ** Staged forward *)

Section StageFacts.
Context `{TensorRuntime}.

Lemma py_index_lookup {A : Type} (l : list A) (i : nat) (a : A) :
  l !! i = Some a -> py_index l (Z.of_nat i) = Ok a.
Proof.
  intros Hl. unfold py_index.
  pose proof (lookup_lt_Some _ _ _ Hl) as Hlt.
  destruct (Z.of_nat i <? 0) eqn:E1; [lia |].
  destruct (Z.of_nat i <? 0) eqn:E2; [lia |].
  destruct (Z.of_nat (length l) <=? Z.of_nat i) eqn:E3; [lia |].
  simpl. rewrite Nat2Z.id, Hl. reflexivity.
Qed.

(** The list handed in is only extended: running the loop on [losses]
    is running it on the empty list and prepending [losses]. *)
Lemma forward_loop_prefix (model : GPTModel) (indices : list Z) (x : hidden)
    (losses : list (option scalar)) (am : attn_mask) :
  forward_loop model indices x losses am =
  (fun r => (r.1, losses ++ r.2)) <$> forward_loop model indices x [] am.
Proof.
  revert x losses. induction indices as [| index rest IH]; intros x losses; simpl.
  - rewrite app_nil_r. reflexivity.
  - destruct (get_layer model index) as [l |]; simpl; [| reflexivity].
    destruct (l x am) as [x' | x' e].
    + rewrite (IH x' (losses ++ [Some szero])), (IH x' [Some szero]).
      destruct (forward_loop model rest x' [] am) as [[x'' new] |]; simpl;
        [rewrite <- app_assoc |]; reflexivity.
    + rewrite (IH x' (losses ++ [e])), (IH x' [e]).
      destruct (forward_loop model rest x' [] am) as [[x'' new] |]; simpl;
        [rewrite <- app_assoc |]; reflexivity.
Qed.

Lemma forward_loop_app (model : GPTModel) (is1 is2 : list Z) (x : hidden)
    (losses : list (option scalar)) (am : attn_mask) :
  forward_loop model (is1 ++ is2) x losses am =
  forward_loop model is1 x losses am ≫= fun r => forward_loop model is2 r.1 r.2 am.
Proof.
  revert x losses. induction is1 as [| index rest IH]; intros x losses; simpl.
  - reflexivity.
  - destruct (get_layer model index) as [l |]; simpl; [| reflexivity].
    destruct (l x am) as [x' | x' e]; apply IH.
Qed.

Lemma py_range_succ (start : Z) (n : nat) :
  py_range start (start + Z.of_nat (S n)) =
  py_range start (start + Z.of_nat n) ++ [start + Z.of_nat n].
Proof.
  unfold py_range.
  replace (Z.to_nat (start + Z.of_nat (S n) - start)) with (S n) by lia.
  replace (Z.to_nat (start + Z.of_nat n - start)) with n by lia.
  rewrite seq_S, map_app. reflexivity.
Qed.

Lemma forward_loop_range (model : GPTModel) (start : Z) (n : nat) (x : hidden)
    (am : attn_mask) :
  0 <= start -> start + Z.of_nat n <= Z.of_nat (length (layers model)) ->
  exists x' new,
    forward_loop model (py_range start (start + Z.of_nat n)) x [] am = Ok (x', new) /\
    length new = n /\
    forall i : nat, (i < n)%nat ->
      exists xi li l,
        forward_loop model (py_range start (start + Z.of_nat i)) x [] am = Ok (xi, li) /\
        layers model !! Z.to_nat (start + Z.of_nat i) = Some l /\
        new !! i = Some (staged_entry (l xi am)).
Proof.
  intros Hstart. induction n as [| n IH]; intros Hstop.
  - exists x, []. replace (start + Z.of_nat 0) with start by lia.
    unfold py_range. rewrite Z.sub_diag. simpl.
    split; [reflexivity |]. split; [reflexivity |]. intros i Hi. lia.
  - destruct IH as (x' & new & Hrun & Hlen & Hent); [lia |].
    destruct (lookup_lt_is_Some_2 (layers model) (Z.to_nat (start + Z.of_nat n)))
      as [l Hl]; [lia |].
    assert (Hget : get_layer model (start + Z.of_nat n) = Ok l).
    { unfold get_layer. rewrite <- (Z2Nat.id (start + Z.of_nat n)) by lia.
      apply py_index_lookup. exact Hl. }
    exists (match l x' am with Plain y => y | WithLoss y _ => y end),
           (new ++ [staged_entry (l x' am)]).
    split; [| split].
    + rewrite py_range_succ, forward_loop_app, Hrun. simpl. rewrite Hget. simpl.
      destruct (l x' am); reflexivity.
    + rewrite length_app, Hlen. simpl. lia.
    + intros i Hi. destruct (decide (i = n)) as [-> | Hne].
      * exists x', new, l. split; [exact Hrun |]. split; [exact Hl |].
        rewrite lookup_app_r by lia. rewrite Hlen, Nat.sub_diag. reflexivity.
      * destruct (Hent i ltac:(lia)) as (xi & li & li' & Hi1 & Hi2 & Hi3).
        exists xi, li, li'. split; [exact Hi1 |]. split; [exact Hi2 |].
        rewrite lookup_app_l by lia. exact Hi3.
Qed.

(** C8: on a range [start, end) of the model's layers, [forward] returns
    the list it was given followed by exactly [end - start] new entries,
    the [i]-th being what layer [start + i] reports on the hidden states
    that reached it, with a zero scalar for a layer that reports no
    loss. *)
Theorem custom_forward_extends (model : GPTModel) (start stop : Z) (x : hidden)
    (moe_losses : list (option scalar)) (attention_mask : attn_mask) :
  0 <= start <= stop -> stop <= Z.of_nat (length (layers model)) ->
  exists x' new,
    custom_forward model start stop x moe_losses attention_mask
      = Ok (x', moe_losses ++ new) /\
    Z.of_nat (length new) = stop - start /\
    forall i : nat, Z.of_nat i < stop - start ->
      exists xi li l,
        custom_forward model start (start + Z.of_nat i) x [] attention_mask
          = Ok (xi, li) /\
        get_layer model (start + Z.of_nat i) = Ok l /\
        new !! i = Some (staged_entry (l xi attention_mask)).
Proof.
  intros Hstart Hstop.
  destruct (forward_loop_range model start (Z.to_nat (stop - start)) x attention_mask)
    as (x' & new & Hrun & Hlen & Hent); [lia | lia |].
  replace (start + Z.of_nat (Z.to_nat (stop - start))) with stop in Hrun by lia.
  exists x', new. split; [| split].
  - unfold custom_forward. rewrite forward_loop_prefix, Hrun. reflexivity.
  - lia.
  - intros i Hi. destruct (Hent i ltac:(lia)) as (xi & li & l & Hi1 & Hi2 & Hi3).
    exists xi, li, l. split; [exact Hi1 |]. split; [| exact Hi3].
    unfold get_layer. rewrite <- (Z2Nat.id (start + Z.of_nat i)) by lia.
    apply py_index_lookup. exact Hi2.
Qed.

(** ** Staged against monolithic *)

Lemma py_range_cons (start stop : Z) :
  start < stop -> py_range start stop = start :: py_range (start + 1) stop.
Proof.
  intros Hlt. unfold py_range.
  replace (Z.to_nat (stop - start)) with (S (Z.to_nat (stop - (start + 1)))) by lia.
  simpl. rewrite Z.add_0_r. f_equal.
  rewrite <- seq_shift, map_map. apply map_ext. intros i. lia.
Qed.

Lemma py_sum_snoc (l : list scalar) (x : scalar) :
  py_sum (l ++ [x]) = sadd (py_sum l) x.
Proof. unfold py_sum. apply foldl_snoc. Qed.

Lemma non_none_snoc (l : list (option scalar)) (e : option scalar) :
  non_none (l ++ [e]) =
  match e with Some v => non_none l ++ [v] | None => non_none l end.
Proof.
  unfold non_none. rewrite omap_app. destruct e; simpl; [| rewrite app_nil_r]; reflexivity.
Qed.

(** The staged loop over all layers from index [k] on and the encoder
    loop of the monolithic forward reach the same hidden states, and
    their auxiliary-loss lists have the same sum. *)
Lemma forward_loop_encoder (model : GPTModel) (am : attn_mask) (n : nat) :
  forall (k : nat) (x : hidden) (ls lm : list (option scalar)),
    (k + n = length (layers model))%nat ->
    py_sum (non_none ls) = py_sum (non_none lm) ->
    exists x' ls' lm',
      forward_loop model
        (py_range (Z.of_nat k) (Z.of_nat (length (layers model)))) x ls am
        = Ok (x', ls') /\
      encoder_forward (drop k (layers model)) x lm am = (x', lm') /\
      py_sum (non_none ls') = py_sum (non_none lm').
Proof.
  induction n as [| n IH]; intros k x ls lm Hk Hsum.
  - replace k with (length (layers model)) by lia.
    unfold py_range. rewrite Z.sub_diag, drop_all. simpl.
    exists x, ls, lm. auto.
  - destruct (lookup_lt_is_Some_2 (layers model) k) as [l Hl]; [lia |].
    rewrite py_range_cons by lia. rewrite (drop_S _ _ _ Hl). simpl.
    unfold get_layer. rewrite (py_index_lookup _ _ _ Hl). simpl.
    replace (Z.of_nat k + 1) with (Z.of_nat (S k)) by lia.
    destruct (l x am) as [x' | x' e].
    + apply IH; [lia |]. rewrite non_none_snoc, py_sum_snoc, sadd_zero_r. exact Hsum.
    + apply IH; [lia |]. rewrite !non_none_snoc.
      destruct e; [rewrite !py_sum_snoc, Hsum |]; auto.
Qed.

Lemma note_curriculum_loss_fields (args : Args) (tokens : tensor2 Z) :
  mos (note_curriculum args tokens) = mos args /\
  kd (note_curriculum args tokens) = kd args /\
  num_experts (note_curriculum args tokens) = num_experts args /\
  moe_loss_coeff (note_curriculum args tokens) = moe_loss_coeff args.
Proof.
  unfold note_curriculum.
  destruct (data_efficiency_curriculum_learning args); [| auto].
  destruct (data_efficiency_curriculum_learning_seqlen_type _) as [[|] |]; auto.
Qed.

Lemma loss_func_same_mode (args args' : Args) (loss_mask : tensor2 scalar)
    (moe_loss mos_loss : scalar) (output_tensor : tensorN) :
  mos args' = mos args -> kd args' = kd args ->
  num_experts args' = num_experts args ->
  loss_func args' loss_mask moe_loss mos_loss output_tensor =
  loss_func args loss_mask moe_loss mos_loss output_tensor.
Proof. intros Hm Hk He. unfold loss_func. rewrite Hm, Hk, He. reflexivity. Qed.

(** C1, as the code has it: outside distillation mode and when the legacy
    curriculum truncation is not in effect, the four stages composed in
    order return what [forward_step] followed by its loss partial
    returns, the total loss and the metrics alike. *)
Theorem staged_equals_monolithic (args : Args)
    (teacher_model : option (list GPTModel)) (model : GPTModel)
    (batch : PreparedBatch) :
  mos args = false -> kd args = false ->
  legacy_truncation (note_curriculum args (b_tokens batch)) = Ok None ->
  staged_loss args model batch = forward_step_loss args teacher_model model batch.
Proof.
  intros Hmos Hkd Hleg.
  destruct batch as [tokens labels loss_mask am position_ids]. simpl in Hleg.
  destruct (note_curriculum_loss_fields args tokens) as (Hm & Hk & He & Hc).
  destruct (forward_loop_encoder model am (length (layers model)) 0
              (make_viewless_tensor (embedding model tokens position_ids)) [] []
              ltac:(lia) eq_refl)
    as (x' & ls' & lm' & Hstaged & Hmono & Hsum).
  rewrite drop_0 in Hmono.
  unfold staged_loss, forward_step_loss, forward_step_on, pre_process_func,
    custom_forward, GPTModel_forward.
  change (Z.of_nat 0) with 0 in Hstaged. rewrite Hstaged, Hmono.
  rewrite Hm, Hk, Hmos, Hkd, Hleg. simpl.
  unfold call_partial. simpl.
  rewrite Hc, Hsum. symmetry. apply loss_func_same_mode; assumption.
Qed.
End StageFacts.

Lemma custom_forward_extends_witness :
  exists x' new,
    @custom_forward matrix_runtime
      (small_model [dense_layer; moe_layer sone; dense_layer]) 1 3
      (T2 [[sone]] 1) [Some sone] None = Ok (x', [Some sone] ++ new) /\
    new = [Some sone; Some szero].
Proof.
  destruct (@custom_forward_extends matrix_runtime
              (small_model [dense_layer; moe_layer sone; dense_layer]) 1 3
              (T2 [[sone]] 1) [Some sone] None ltac:(lia) ltac:(simpl; lia))
    as (x' & new & Hrun & _ & _).
  exists x', new. split; [exact Hrun |].
  vm_compute in Hrun. injection Hrun as _ Hnew.
  destruct new as [| a [| b [| c new]]]; try discriminate Hnew.
  injection Hnew as <- <-. reflexivity.
Defined.

Lemma staged_equals_monolithic_witness :
  @staged_loss matrix_runtime moe_args
    (small_model [dense_layer; moe_layer sone]) small_batch =
  @forward_step_loss matrix_runtime moe_args None
    (small_model [dense_layer; moe_layer sone]) small_batch.
Proof.
  apply (@staged_equals_monolithic matrix_runtime moe_args None
           (small_model [dense_layer; moe_layer sone]) small_batch);
    reflexivity.
Defined.

(** C1 as stated fails in distillation mode: with a teacher whose output
    differs from the student's, [forward_step] adds the distillation
    loss, which the staged loss function fixes at zero. *)
Lemma staged_differs_under_distillation :
  (scalar_Q ∘ fst) <$> @staged_loss matrix_runtime kd_args (small_model []) small_batch
    = Ok (Some (3 # 2)%Q) /\
  (scalar_Q ∘ fst) <$> @forward_step_loss matrix_runtime kd_args
      (Some [small_model [shift_layer]]) (small_model []) small_batch
    = Ok (Some (2 # 1)%Q) /\
  fst <$> @staged_loss matrix_runtime kd_args (small_model []) small_batch <>
  fst <$> @forward_step_loss matrix_runtime kd_args
            (Some [small_model [shift_layer]]) (small_model []) small_batch.
Proof.
  split; [reflexivity |]. split; [reflexivity |].
  vm_compute. intros Heq. discriminate Heq.
Qed.

(** ** Legacy curriculum truncation *)

Lemma slice_cols_prefix_all {A : Type} (n : Z) (t : tensor2 A) :
  wf2 t -> Z.of_nat (ncols t) <= n -> slice_cols None (Some n) t = t.
Proof.
  intros Hwf Hn. destruct t as [rs c]. unfold slice_cols, wf2 in *. simpl in *.
  f_equal.
  - rewrite <- (map_id rs) at 2.
    apply map_ext_Forall. eapply Forall_impl; [exact Hwf |].
    simpl. intros r Hr. rewrite py_slice_prefix by lia.
    apply take_ge. lia.
  - unfold slice_len, slice_hi, slice_lo, norm_bound.
    destruct (n <? 0) eqn:E; lia.
Qed.

Section LegacyFacts.
Context `{MaskBuilder} `{TensorRuntime}.

Lemma legacy_truncation_active (args : Args) (cs : Z) :
  curriculum_learning_legacy args = true ->
  curriculum_seqlen args = Some cs -> cs < seq_length args ->
  legacy_truncation args = Ok (Some cs).
Proof.
  intros Hleg Hcs Hlt. unfold legacy_truncation. rewrite Hleg, Hcs.
  apply Z.ltb_lt in Hlt. rewrite Hlt. reflexivity.
Qed.

(** C6, as the code has it: with the legacy curriculum flag set and
    [curriculum_seqlen = cs] below the configured sequence length,
    [forward_step] truncates the loss mask to [cs] columns, and the
    labels too in distillation mode, while outside distillation mode it
    hands labels and attention mask to the model as they are;
    [calculate_mos_loss] runs the teacher on tokens, position ids and the
    attention mask (last two axes) truncated to [cs]; [get_batch_pipe]
    returns tokens, position ids, labels and loss mask truncated to [cs]
    and the attention mask as it was built. *)
Theorem legacy_truncation_sites (args : Args) (cs : Z) :
  curriculum_learning_legacy args = true ->
  curriculum_seqlen args = Some cs -> cs < seq_length args ->
  (forall teacher_model model batch output_tensor p args',
     data_efficiency_curriculum_learning args = false ->
     forward_step_on args teacher_model model batch = Ok (output_tensor, p, args') ->
     args' = args /\
     p_loss_mask p = slice_cols None (Some cs) (b_loss_mask batch) /\
     (mos args || kd args = true ->
      output_tensor =
        vocab_parallel_cross_entropy
          (GPTModel_forward model (b_tokens batch) (b_position_ids batch)
             (b_attention_mask batch) None).1
          (slice_cols None (Some cs) (b_labels batch))) /\
     (mos args || kd args = false ->
      output_tensor =
        (GPTModel_forward model (b_tokens batch) (b_position_ids batch)
           (b_attention_mask batch) (Some (b_labels batch))).1)) /\
  (forall stu_output teacher tokens position_ids mask,
     calculate_mos_loss args stu_output (Some teacher) tokens position_ids
       (Some mask) =
     let tea_output :=
       (GPTModel_forward teacher (slice_cols None (Some cs) tokens)
          (slice_cols None (Some cs) position_ids)
          (Some (slice_last2 cs mask)) None).1 in
     _ ← py_assert (bool_decide (tshape stu_output = tshape tea_output));
     Ok (smul (sdiv (smul (smul (kd_temp args) (kd_temp args))
                       (kl_div_batchmean
                          (log_softmax (tdiv stu_output (kd_temp args)))
                          (softmax (tdiv tea_output (kd_temp args)))))
                    (of_Z (seq_length args)))
              (kd_beta_ce args))) /\
  (forall text,
     let tokens := slice_cols None (Some (-1)) text in
     let labels := slice_cols (Some 1) None text in
     let masks :=
       get_ltor_masks_and_position_ids tokens tokenizer_eod
         (reset_position_ids args) (reset_attention_mask args)
         (eod_mask_loss args) false in
     wf2 text ->
     wf2 masks.1.2 -> ncols masks.1.2 = ncols tokens ->
     wf2 masks.2 -> ncols masks.2 = ncols tokens ->
     get_batch_pipe args text =
     Ok ((slice_cols None (Some cs) tokens, slice_cols None (Some cs) masks.2,
          masks.1.1),
         (slice_cols None (Some cs) labels, slice_cols None (Some cs) masks.1.2))).
Proof.
  intros Hleg Hcs Hlt.
  pose proof (legacy_truncation_active args cs Hleg Hcs Hlt) as Htrunc.
  split; [| split].
  - intros teacher_model model [tokens labels loss_mask am position_ids]
      output_tensor p args' Hde Hstep.
    unfold forward_step_on, note_curriculum in Hstep. rewrite Hde in Hstep.
    simpl. destruct (mos args || kd args) eqn:Ed.
    + destruct (GPTModel_forward model tokens position_ids am None)
        as [stu other] eqn:Estu.
      rewrite Htrunc in Hstep. simpl in Hstep. rewrite Htrunc in Hstep.
      simpl in Hstep.
      destruct (py_assert (training model)); [| discriminate]. simpl in Hstep.
      destruct (match teacher_model with Some _ => _ | None => _ end);
        [| discriminate].
      simpl in Hstep. injection Hstep as <- <- <-.
      split; [reflexivity |]. split; [reflexivity |].
      split; [reflexivity | discriminate].
    + destruct (GPTModel_forward model tokens position_ids am (Some labels))
        as [out other] eqn:Eout.
      simpl in Hstep. rewrite Htrunc in Hstep. simpl in Hstep.
      injection Hstep as <- <- <-.
      split; [reflexivity |]. split; [reflexivity |].
      split; [discriminate | reflexivity].
  - intros stu_output teacher tokens position_ids mask.
    unfold calculate_mos_loss. rewrite Htrunc. simpl.
    destruct (GPTModel_forward teacher _ _ _ None) as [tea other]. reflexivity.
  - intros text tokens labels masks Hwf Hlm_wf Hlm_cols Hpos_wf Hpos_cols.
    unfold get_batch_pipe. fold tokens. fold labels. fold masks.
    destruct masks as [[am lm] pos] eqn:Em. cbn [fst snd] in *.
    rewrite Hleg, Hcs.
    destruct (cs <? Z.of_nat (ncols tokens)) eqn:E; [reflexivity |].
    apply Z.ltb_ge in E.
    assert (Hlabels : ncols labels = ncols tokens).
    { unfold labels, tokens, slice_cols, slice_len, slice_hi, slice_lo, norm_bound.
      simpl. lia. }
    rewrite (slice_cols_prefix_all cs tokens)
      by (try apply wf2_slice_cols; try assumption; lia).
    rewrite (slice_cols_prefix_all cs labels)
      by (try apply wf2_slice_cols; try assumption; lia).
    rewrite (slice_cols_prefix_all cs pos) by (try assumption; lia).
    rewrite (slice_cols_prefix_all cs lm) by (try assumption; lia).
    reflexivity.
Qed.
End LegacyFacts.

Lemma legacy_truncation_sites_witness :
  @get_batch_pipe basic_masks legacy_args (T2 [[1; 2; 3]] 3) =
  Ok ((T2 [[1]] 1, T2 [[0]] 1, Some [[[[false; true]; [false; false]]]]),
      (T2 [[2]] 1, T2 [[sone]] 1)).
Proof.
  apply (proj2 (proj2 (@legacy_truncation_sites basic_masks matrix_runtime
                         legacy_args 1 eq_refl eq_refl ltac:(simpl; lia)))
               (T2 [[1; 2; 3]] 3)).
  - repeat constructor.
  - repeat constructor.
  - reflexivity.
  - repeat constructor.
  - reflexivity.
Defined.

(** C6 as stated fails: with the legacy flag set and
    [curriculum_seqlen = 1] below the sequence length 2,
    [get_batch_pipe] hands on labels and loss mask truncated to one
    column and the attention mask at its full size [2 x 2]. *)
Lemma legacy_attention_mask_untruncated :
  curriculum_learning_legacy legacy_args = true /\
  curriculum_seqlen legacy_args = Some 1 /\
  1 < seq_length legacy_args /\
  @get_batch_pipe basic_masks legacy_args (T2 [[1; 2; 3]] 3) =
    Ok ((T2 [[1]] 1, T2 [[0]] 1, Some [[[[false; true]; [false; false]]]]),
        (T2 [[2]] 1, T2 [[sone]] 1)) /\
  [[[[false; true]; [false; false]]]] <>
    slice_last2 1 [[[[false; true]; [false; false]]]].
Proof.
  split; [reflexivity |]. split; [reflexivity |]. split; [simpl; lia |].
  split; [reflexivity |]. vm_compute. intros Heq. discriminate Heq.
Qed.

(** ** Further properties of the staged forward *)

Lemma py_range_split (start mid stop : Z) :
  start <= mid <= stop ->
  py_range start stop = py_range start mid ++ py_range mid stop.
Proof.
  intros Hm. unfold py_range.
  replace (Z.to_nat (stop - start))
    with (Z.to_nat (mid - start) + Z.to_nat (stop - mid))%nat by lia.
  rewrite seq_app, map_app. f_equal. rewrite Nat.add_0_l.
  replace (seq (Z.to_nat (mid - start)) (Z.to_nat (stop - mid)))
    with (map (Nat.add (Z.to_nat (mid - start))) (seq 0 (Z.to_nat (stop - mid))))
    by (rewrite <- (Nat.add_0_r (Z.to_nat (mid - start))) at 2;
        apply (fmap_add_seq (Z.to_nat (mid - start)) 0)).
  rewrite map_map. apply map_ext. intros i. lia.
Qed.

Lemma elem_of_py_range (start stop i : Z) :
  i ∈ py_range start stop <-> start <= i < stop.
Proof.
  split; [apply py_range_bounds |]. intros Hi. unfold py_range.
  apply list_elem_of_fmap. exists (Z.to_nat (i - start)). split; [lia |].
  apply list_elem_of_In, in_seq. lia.
Qed.

Lemma py_index_cases {A : Type} (l : list A) (index : Z) :
  let n := Z.of_nat (length l) in
  (- n <= index < n -> exists a, py_index l index = Ok a) /\
  (~ (- n <= index < n) -> py_index l index = Raise IndexError).
Proof.
  cbv zeta. unfold py_index. cbv zeta. split.
  - intros Hi. destruct (index <? 0) eqn:E1.
    + apply Z.ltb_lt in E1.
      destruct (index + Z.of_nat (length l) <? 0) eqn:E2; [lia |].
      destruct (Z.of_nat (length l) <=? index + Z.of_nat (length l)) eqn:E3; [lia |].
      simpl.
      destruct (lookup_lt_is_Some_2 l (Z.to_nat (index + Z.of_nat (length l))))
        as [a Ha]; [lia |].
      rewrite Ha. eauto.
    + rewrite E1. apply Z.ltb_ge in E1.
      destruct (Z.of_nat (length l) <=? index) eqn:E3; [lia |]. simpl.
      destruct (lookup_lt_is_Some_2 l (Z.to_nat index)) as [a Ha]; [lia |].
      rewrite Ha. eauto.
  - intros Hi. destruct (index <? 0) eqn:E1.
    + apply Z.ltb_lt in E1.
      destruct (index + Z.of_nat (length l) <? 0) eqn:E2; [reflexivity |].
      simpl. destruct (Z.of_nat (length l) <=? index + Z.of_nat (length l)) eqn:E3;
        [reflexivity | lia].
    + rewrite E1. apply Z.ltb_ge in E1. simpl.
      destruct (Z.of_nat (length l) <=? index) eqn:E3; [reflexivity | lia].
Qed.

Section StageFacts2.
Context `{TensorRuntime}.

Lemma forward_loop_valid (model : GPTModel) (indices : list Z) (x : hidden)
    (losses : list (option scalar)) (am : attn_mask) :
  Forall (fun i => - Z.of_nat (length (layers model)) <= i
                   < Z.of_nat (length (layers model))) indices ->
  exists r, forward_loop model indices x losses am = Ok r.
Proof.
  intros Hall. revert x losses.
  induction Hall as [| index rest Hi _ IH]; intros x losses; simpl; [eauto |].
  destruct (proj1 (py_index_cases (layers model) index) Hi) as [l Hl].
  unfold get_layer. rewrite Hl. simpl. destruct (l x am); apply IH.
Qed.

Lemma forward_loop_invalid (model : GPTModel) (indices : list Z) (x : hidden)
    (losses : list (option scalar)) (am : attn_mask) :
  Exists (fun i => ~ (- Z.of_nat (length (layers model)) <= i
                      < Z.of_nat (length (layers model)))) indices ->
  forward_loop model indices x losses am = Raise IndexError.
Proof.
  intros Hex. revert x losses.
  induction indices as [| index rest IH]; intros x losses.
  - apply Exists_nil in Hex. contradiction.
  - simpl. unfold get_layer.
    destruct (decide (- Z.of_nat (length (layers model)) <= index
                      < Z.of_nat (length (layers model)))) as [Hin | Hout].
    + destruct (proj1 (py_index_cases (layers model) index) Hin) as [l Hl].
      rewrite Hl. simpl.
      apply Exists_cons in Hex as [Hbad | Hex]; [contradiction |].
      destruct (l x am); apply IH; exact Hex.
    + rewrite (proj2 (py_index_cases (layers model) index) Hout). reflexivity.
Qed.

(** X1: a layer range may be split at any point: running [start, mid)
    and then [mid, end) on what the first run returned is running
    [start, end), errors included. *)
Theorem custom_forward_split (model : GPTModel) (start mid stop : Z) (x : hidden)
    (moe_losses : list (option scalar)) (attention_mask : attn_mask) :
  start <= mid <= stop ->
  custom_forward model start stop x moe_losses attention_mask =
  custom_forward model start mid x moe_losses attention_mask ≫=
    fun r => custom_forward model mid stop r.1 r.2 attention_mask.
Proof.
  intros Hm. unfold custom_forward.
  rewrite (py_range_split start mid stop Hm). apply forward_loop_app.
Qed.

(** X2: [forward] fails exactly when the range holds an index outside
    [-n, n) for a model of [n] layers, and then with [IndexError]; a
    negative index inside that interval addresses a layer from the end.
    An empty range returns its inputs unchanged without touching the
    model. *)
Theorem custom_forward_index_error (model : GPTModel) (start stop : Z) (x : hidden)
    (moe_losses : list (option scalar)) (attention_mask : attn_mask) :
  let n := Z.of_nat (length (layers model)) in
  (start < stop -> - n <= start -> stop <= n ->
   exists r, custom_forward model start stop x moe_losses attention_mask = Ok r) /\
  (start < stop -> start < - n \/ n < stop ->
   custom_forward model start stop x moe_losses attention_mask = Raise IndexError) /\
  (stop <= start ->
   custom_forward model start stop x moe_losses attention_mask = Ok (x, moe_losses)).
Proof.
  cbv zeta. unfold custom_forward. split; [| split].
  - intros Hlt Hlo Hhi. apply forward_loop_valid, Forall_forall.
    intros i Hi. apply elem_of_py_range in Hi. lia.
  - intros Hlt Hbad. apply forward_loop_invalid, Exists_exists.
    destruct Hbad as [Hlo | Hhi].
    + exists start. split; [apply elem_of_py_range; lia | lia].
    + exists (stop - 1). split; [apply elem_of_py_range; lia | lia].
  - intros Hle. unfold py_range.
    replace (Z.to_nat (stop - start)) with 0%nat by lia. reflexivity.
Qed.

(** X3: the hidden states [forward] returns and the entries it appends do
    not depend on the list it is given: running it on [moe_losses] is
    running it on the empty list and putting [moe_losses] in front. *)
Theorem custom_forward_list_independent (model : GPTModel) (start stop : Z)
    (x : hidden) (moe_losses : list (option scalar)) (attention_mask : attn_mask) :
  custom_forward model start stop x moe_losses attention_mask =
  (fun r => (r.1, moe_losses ++ r.2)) <$>
    custom_forward model start stop x [] attention_mask.
Proof. unfold custom_forward. apply forward_loop_prefix. Qed.

(** X4: [post_process_func] fails its assertion unless it is given
    exactly one post input; given one, it returns the auxiliary-loss list
    it received unchanged, beside the head applied to the normalised
    hidden states and that input as labels. *)
Theorem post_process_func_arity (model : GPTModel) (hidden_states : hidden)
    (moe_losses : list (option scalar)) (post_inputs : list (tensor2 Z)) :
  (length post_inputs <> 1%nat ->
   post_process_func model (hidden_states, moe_losses) post_inputs
     = Raise AssertionError) /\
  (forall labels, post_inputs = [labels] ->
   post_process_func model (hidden_states, moe_losses) post_inputs =
     Ok (post_language_model_processing (final_layernorm model hidden_states)
           (Some labels) (word_embeddings_weight model) (parallel_output model)
           (fp16_lm_cross_entropy model),
         moe_losses)).
Proof.
  split.
  - intros Hlen. unfold post_process_func.
    destruct (length post_inputs =? 1)%nat eqn:E; [| reflexivity].
    apply Nat.eqb_eq in E. contradiction.
  - intros labels ->. reflexivity.
Qed.
End StageFacts2.

(** ** Further properties of the loss aggregator *)

Lemma sadd_nan_r (a : scalar) : sadd a NaN = NaN.
Proof. destruct a; reflexivity. Qed.

Lemma tsum_nan (l : list scalar) : NaN ∈ l -> tsum l = NaN.
Proof.
  induction l as [| x l IH]; intros Hin.
  - apply elem_of_nil in Hin. contradiction.
  - change (tsum (x :: l)) with (sadd x (tsum l)).
    apply elem_of_cons in Hin as [<- | Hin]; [reflexivity |].
    rewrite IH by assumption. apply sadd_nan_r.
Qed.

Lemma smul_nonfinite_zero (v : scalar) : ~ finite v -> smul v szero = NaN.
Proof.
  intros Hv. destruct v; try reflexivity. exfalso. apply Hv. eexists. reflexivity.
Qed.




Section LossFacts2.
Context `{TensorRuntime}.

(** X5: the total [loss_func] returns is the primary loss alone with at
    most one expert, the primary plus the auxiliary loss with more, and
    primary plus auxiliary plus distillation loss in distillation mode,
    where it is also reported as ['total loss']; ['lm loss'] is always
    the data-parallel average of the primary loss, never the total. *)
Theorem loss_func_total_by_mode (args : Args) (loss_mask : tensor2 scalar)
    (moe_loss mos_loss : scalar) (output_tensor : tensorN)
    (total : scalar) (metrics : gmap string scalar) :
  loss_func args loss_mask moe_loss mos_loss output_tensor = Ok (total, metrics) ->
  exists loss,
    primary_loss loss_mask output_tensor = Ok loss /\
    metrics !! "lm loss"%string = Some (dp_average loss) /\
    (mos args || kd args = true ->
     total = sadd (sadd loss moe_loss) mos_loss /\
     metrics !! "total loss"%string = Some total /\
     metrics !! "moe loss"%string = Some moe_loss) /\
    (mos args || kd args = false ->
     exists m, py_max (num_experts args) = Ok m /\
       (m <= 1 -> total = loss) /\
       (1 < m -> total = sadd loss moe_loss /\
                 metrics !! "moe loss"%string = Some moe_loss)).
Proof.
  unfold loss_func.
  destruct (primary_loss loss_mask output_tensor) as [loss |]; [| discriminate].
  simpl. intros Hres. exists loss. split; [reflexivity |].
  destruct (mos args) eqn:Emos; simpl in *.
  - injection Hres as <- <-. split_and!; try reflexivity; [auto | discriminate].
  - destruct (kd args) eqn:Ekd; simpl in *.
    + injection Hres as <- <-. split_and!; try reflexivity; [auto | discriminate].
    + destruct (py_max (num_experts args)) as [m |]; [| discriminate].
      simpl in Hres. destruct (m <=? 1) eqn:Em.
      * injection Hres as <- <-. apply Z.leb_le in Em.
        split_and!; try reflexivity; [discriminate |].
        intros _. exists m. split_and!; [reflexivity | reflexivity | lia].
      * injection Hres as <- <-. apply Z.leb_gt in Em.
        split_and!; try reflexivity; [discriminate |].
        intros _. exists m. split_and!; [reflexivity | lia | auto].
Qed.

(** X6: outside distillation mode [loss_func] never reads the
    distillation loss, and with at most one expert it does not read the
    auxiliary loss either: losses the layers report are dropped. *)
Theorem loss_func_ignores_unused_terms (args : Args) (loss_mask : tensor2 scalar)
    (moe_loss mos_loss moe_loss' mos_loss' : scalar) (output_tensor : tensorN) :
  mos args || kd args = false ->
  loss_func args loss_mask moe_loss mos_loss output_tensor =
    loss_func args loss_mask moe_loss mos_loss' output_tensor /\
  (forall m, py_max (num_experts args) = Ok m -> m <= 1 ->
   loss_func args loss_mask moe_loss mos_loss output_tensor =
     loss_func args loss_mask moe_loss' mos_loss' output_tensor).
Proof.
  intros Hmode. unfold loss_func. rewrite Hmode. split; [reflexivity |].
  intros m Hm Hle. rewrite Hm. apply Z.leb_le in Hle. simpl. rewrite Hle.
  reflexivity.
Qed.

(** X7: with an empty [num_experts] list [loss_func] raises [ValueError]
    outside distillation mode, once the primary loss is computed; in
    distillation mode the list is not consulted and a result is
    returned. *)
Theorem loss_func_no_experts (args : Args) (loss_mask : tensor2 scalar)
    (moe_loss mos_loss : scalar) (output_tensor : tensorN) (loss : scalar) :
  primary_loss loss_mask output_tensor = Ok loss ->
  num_experts args = [] ->
  (mos args || kd args = false ->
   loss_func args loss_mask moe_loss mos_loss output_tensor = Raise ValueError) /\
  (mos args || kd args = true ->
   exists metrics,
     loss_func args loss_mask moe_loss mos_loss output_tensor =
       Ok (sadd (sadd loss moe_loss) mos_loss, metrics)).
Proof.
  intros Hloss Hnone. unfold loss_func. rewrite Hloss, Hnone. simpl. split.
  - intros ->. reflexivity.
  - intros ->. destruct (mos args); eexists; reflexivity.
Qed.

(** X8: when the flattened output and loss mask differ in size and
    neither has a single element, the product cannot be broadcast and
    [loss_func] raises [RuntimeError] in every mode. *)
Theorem loss_func_shape_mismatch (args : Args) (loss_mask : tensor2 scalar)
    (moe_loss mos_loss : scalar) (output_tensor : tensorN) :
  length (tflat output_tensor) <> length (flatten loss_mask) ->
  length (tflat output_tensor) <> 1%nat ->
  length (flatten loss_mask) <> 1%nat ->
  primary_loss loss_mask output_tensor = Raise RuntimeError /\
  loss_func args loss_mask moe_loss mos_loss output_tensor = Raise RuntimeError.
Proof.
  intros Hne Ho Hm.
  assert (Hprim : primary_loss loss_mask output_tensor = Raise RuntimeError).
  { unfold primary_loss, tmul.
    destruct (length (tflat output_tensor) =? length (flatten loss_mask))%nat eqn:E;
      [apply Nat.eqb_eq in E; contradiction |].
    destruct (tflat output_tensor) as [| x [| x' a]];
      destruct (flatten loss_mask) as [| y [| y' b]];
      simpl in *; try reflexivity; contradiction. }
  split; [exact Hprim |]. unfold loss_func. rewrite Hprim. reflexivity.
Qed.


(** X10: masking does not shield the loss from a non-finite value: an
    infinite or NaN per-token loss at a position the mask zeroes makes
    the primary loss NaN. *)
Theorem primary_loss_masked_nonfinite (loss_mask : tensor2 scalar)
    (output_tensor : tensorN) (i : nat) (v : scalar) :
  length (tflat output_tensor) = length (flatten loss_mask) ->
  tflat output_tensor !! i = Some v -> ~ finite v ->
  flatten loss_mask !! i = Some szero ->
  primary_loss loss_mask output_tensor = Ok NaN.
Proof.
  intros Hlen Hv Hnf Hm. unfold primary_loss.
  rewrite tmul_same_length by assumption. simpl.
  rewrite tsum_nan; [reflexivity |].
  apply list_elem_of_lookup. exists i.
  rewrite lookup_zip_with, Hv. simpl. rewrite Hm. simpl.
  rewrite smul_nonfinite_zero by assumption. reflexivity.
Qed.

Lemma py_sum_drop_zero (a b : list scalar) :
  py_sum (a ++ szero :: b) = py_sum (a ++ b).
Proof.
  unfold py_sum. rewrite !foldl_app. simpl. rewrite sadd_zero_r. reflexivity.
Qed.

(** X11: [flextrain_loss_func] gives the same result when a [None] entry
    or a zero entry is removed from the auxiliary losses, so the zero
    scalars the staged forward inserts for layers without a loss change
    nothing. *)
Theorem flextrain_loss_func_ignores_none_and_zero (args : Args)
    (output_tensor : tensorN) (l1 l2 : list (option scalar))
    (loss_inputs : list (tensor2 scalar)) :
  flextrain_loss_func args (output_tensor, l1 ++ None :: l2) loss_inputs =
    flextrain_loss_func args (output_tensor, l1 ++ l2) loss_inputs /\
  flextrain_loss_func args (output_tensor, l1 ++ Some szero :: l2) loss_inputs =
    flextrain_loss_func args (output_tensor, l1 ++ l2) loss_inputs.
Proof.
  unfold flextrain_loss_func, non_none. rewrite !omap_app. simpl.
  rewrite py_sum_drop_zero. split; reflexivity.
Qed.
End LossFacts2.

(** ** Further properties of the batch builder *)

Lemma py_slice_lookup {A : Type} (lo : Z) (hi : option Z) (l : list A)
    (j : nat) (a : A) :
  0 <= lo -> py_slice (Some lo) hi l !! j = Some a ->
  l !! (Z.to_nat lo + j)%nat = Some a.
Proof.
  intros Hlo. unfold py_slice. intros Hj.
  apply lookup_take_Some in Hj as [Hj _]. rewrite lookup_drop in Hj.
  unfold slice_lo, norm_bound in Hj.
  destruct (lo <? 0) eqn:E; [lia |].
  destruct (Z.le_gt_cases lo (Z.of_nat (length l))).
  - rewrite Z.min_l in Hj by lia. exact Hj.
  - rewrite Z.min_r in Hj by lia. apply lookup_lt_Some in Hj. lia.
Qed.

Lemma py_slice_prefix_lookup {A : Type} (hi : option Z) (l : list A)
    (j : nat) (a : A) :
  py_slice None hi l !! j = Some a -> l !! j = Some a.
Proof.
  unfold py_slice. simpl slice_lo. change (Z.to_nat 0) with 0%nat.
  rewrite drop_0. intros Hj. apply lookup_take_Some in Hj as [Hj _]. exact Hj.
Qed.

Lemma entry_slice_cols {A : Type} (lo : Z) (hi : option Z) (t : tensor2 A)
    (r j : nat) (a : A) :
  0 <= lo -> entry (slice_cols (Some lo) hi t) r j = Some a ->
  entry t r (Z.to_nat lo + j) = Some a.
Proof.
  intros Hlo. unfold entry, slice_cols. simpl. rewrite list_lookup_fmap.
  destruct (rows t !! r) as [row |]; simpl; [| discriminate].
  apply py_slice_lookup. exact Hlo.
Qed.

Lemma entry_slice_cols_prefix {A : Type} (hi : option Z) (t : tensor2 A)
    (r j : nat) (a : A) :
  entry (slice_cols None hi t) r j = Some a -> entry t r j = Some a.
Proof.
  unfold entry, slice_cols. simpl. rewrite list_lookup_fmap.
  destruct (rows t !! r) as [row |]; simpl; [| discriminate].
  apply py_slice_prefix_lookup.
Qed.

Section BatchBuilderFacts2.
Context `{MaskBuilder}.

(** X12: every token [get_batch] returns on rank [R] of [W] is the raw
    token [R * seq/W] columns further right in the same row; its label
    is the raw token one column after that when the dedicated
    sequence-parallel group slices the labels, and otherwise the label
    at column [j] is the raw token at column [j + 1]. *)
Theorem get_batch_next_token (args : Args) (mpu : mpu_state) (text : tensor2 Z)
    (batch : PreparedBatch) :
  get_batch args mpu text = Ok batch ->
  0 < effective_world_size args mpu -> 0 <= effective_rank args mpu ->
  let seq := Z.of_nat (ncols (slice_cols None (Some (-1)) text)) in
  let off := Z.to_nat (effective_rank args mpu * (seq / effective_world_size args mpu)) in
  forall (r j : nat) (t : Z),
    (entry (b_tokens batch) r j = Some t -> entry text r (off + j) = Some t) /\
    (1 < sequence_parallel_world_size mpu ->
     entry (b_labels batch) r j = Some t -> entry text r (off + j + 1) = Some t) /\
    (sequence_parallel_world_size mpu <= 1 ->
     entry (b_labels batch) r j = Some t -> entry text r (j + 1) = Some t).
Proof.
  intros Hget HW HR. cbv zeta. unfold get_batch in Hget.
  destruct (get_ltor_masks_and_position_ids _ _ _ _ _ _) as [[am lm] pos].
  destruct (effective_world_size args mpu =? 0); [discriminate |].
  destruct (_ mod _ =? 0); [| discriminate].
  simpl in Hget. injection Hget as <-. simpl.
  set (seq := Z.of_nat (slice_len None (Some (-1)) (ncols text))).
  assert (Hoff : 0 <= effective_rank args mpu * (seq / effective_world_size args mpu)).
  { apply Z.mul_nonneg_nonneg; [lia |]. apply Z.div_pos; lia. }
  intros r j t. split; [| split].
  - intros Ht. apply entry_slice_cols in Ht; [| exact Hoff].
    apply entry_slice_cols_prefix in Ht. exact Ht.
  - intros Hgt. apply Z.ltb_lt in Hgt. rewrite Hgt. intros Ht.
    apply entry_slice_cols in Ht; [| exact Hoff].
    apply entry_slice_cols in Ht; [| lia].
    rewrite <- Ht. f_equal. change (Z.to_nat 1) with 1%nat. lia.
  - intros Hle. destruct (1 <? _) eqn:E; [apply Z.ltb_lt in E; lia |].
    intros Ht. apply entry_slice_cols in Ht; [| lia].
    rewrite <- Ht. f_equal. change (Z.to_nat 1) with 1%nat. lia.
Qed.

(** X13: [get_batch] never slices the masks: the loss mask and the
    attention mask it returns are the ones built for the unsliced
    tokens, while on a rank [R] with [0 <= R < W] the tokens it returns
    have [seq / W] columns. *)
Theorem get_batch_masks_unsliced (args : Args) (mpu : mpu_state)
    (text : tensor2 Z) (batch : PreparedBatch) :
  get_batch args mpu text = Ok batch ->
  let tokens := slice_cols None (Some (-1)) text in
  let masks :=
    get_ltor_masks_and_position_ids tokens tokenizer_eod
      (reset_position_ids args) (reset_attention_mask args)
      (eod_mask_loss args)
      (use_flash_attn args || use_flash_attn_triton args) in
  b_loss_mask batch = masks.1.2 /\
  b_attention_mask batch = masks.1.1 /\
  (0 <= effective_rank args mpu < effective_world_size args mpu ->
   Z.of_nat (ncols (b_tokens batch)) =
     Z.of_nat (ncols tokens) / effective_world_size args mpu).
Proof.
  intros Hget. cbv zeta. unfold get_batch in Hget.
  destruct (get_ltor_masks_and_position_ids _ _ _ _ _ _) as [[am lm] pos].
  destruct (effective_world_size args mpu =? 0); [discriminate |].
  destruct (_ mod _ =? 0) eqn:Emod; [| discriminate].
  simpl in Hget. injection Hget as <-. simpl.
  split; [reflexivity |]. split; [reflexivity |]. intros HR.
  apply Z.eqb_eq in Emod. cbn [ncols slice_cols] in Emod.
  set (n := slice_len None (Some (-1)) (ncols text)) in *.
  set (W := effective_world_size args mpu) in *.
  set (R := effective_rank args mpu) in *.
  assert (Hn : Z.of_nat n = W * (Z.of_nat n / W)) by (apply Z.div_exact; lia).
  assert (Hsub : 0 <= Z.of_nat n / W) by (apply Z.div_pos; lia).
  rewrite slice_len_between by nia. nia.
Qed.

(** X14: whatever [get_batch_pipe] returns, truncated or not, keeps the
    alignment of the raw batch: the token at column [j] is the raw token
    at column [j], the label at column [j] is the raw token at column
    [j + 1], and the attention mask is the one the mask builder made. *)
Theorem get_batch_pipe_alignment (args : Args) (text : tensor2 Z)
    (tokens position_ids labels : tensor2 Z) (attention_mask : attn_mask)
    (loss_mask : tensor2 scalar) :
  get_batch_pipe args text =
    Ok ((tokens, position_ids, attention_mask), (labels, loss_mask)) ->
  (forall (r j : nat) (t : Z),
     (entry tokens r j = Some t -> entry text r j = Some t) /\
     (entry labels r j = Some t -> entry text r (j + 1) = Some t)) /\
  attention_mask =
    (get_ltor_masks_and_position_ids (slice_cols None (Some (-1)) text)
       tokenizer_eod (reset_position_ids args) (reset_attention_mask args)
       (eod_mask_loss args) false).1.1.
Proof.
  unfold get_batch_pipe.
  destruct (get_ltor_masks_and_position_ids _ _ _ _ _ _) as [[am lm] pos].
  simpl. intros Hget.
  assert (Hfull : forall (r j : nat) (t : Z),
    (entry (slice_cols None (Some (-1)) text) r j = Some t -> entry text r j = Some t) /\
    (entry (slice_cols (Some 1) None text) r j = Some t ->
     entry text r (j + 1) = Some t)).
  { intros r j t. split; [apply entry_slice_cols_prefix |].
    intros Ht. apply entry_slice_cols in Ht; [| lia].
    rewrite <- Ht. f_equal. change (Z.to_nat 1) with 1%nat. lia. }
  destruct (curriculum_learning_legacy args).
  - destruct (curriculum_seqlen args) as [cs |]; [| discriminate].
    destruct (cs <? _).
    + injection Hget as <- <- <- <- <-. split; [| reflexivity].
      intros r j t. split; intros Ht; apply entry_slice_cols_prefix in Ht;
        apply Hfull; exact Ht.
    + injection Hget as <- <- <- <- <-. split; [exact Hfull | reflexivity].
  - injection Hget as <- <- <- <- <-. split; [exact Hfull | reflexivity].
Qed.

(** X15: [get_batch_pipe] raises [TypeError] when the legacy curriculum
    flag is set without a [curriculum_seqlen], and returns the
    untruncated tensors when the flag is off or [curriculum_seqlen] is
    not below the token width. *)
Theorem get_batch_pipe_edges (args : Args) (text : tensor2 Z) :
  let tokens := slice_cols None (Some (-1)) text in
  let labels := slice_cols (Some 1) None text in
  let masks :=
    get_ltor_masks_and_position_ids tokens tokenizer_eod
      (reset_position_ids args) (reset_attention_mask args)
      (eod_mask_loss args) false in
  (curriculum_learning_legacy args = true -> curriculum_seqlen args = None ->
   get_batch_pipe args text = Raise TypeError) /\
  (curriculum_learning_legacy args = false \/
   (exists cs, curriculum_seqlen args = Some cs /\ Z.of_nat (ncols tokens) <= cs) ->
   get_batch_pipe args text =
     Ok ((tokens, masks.2, masks.1.1), (labels, masks.1.2))).
Proof.
  cbv zeta. unfold get_batch_pipe.
  destruct (get_ltor_masks_and_position_ids _ _ _ _ _ _) as [[am lm] pos].
  simpl. split.
  - intros -> ->. reflexivity.
  - intros [-> | (cs & -> & Hcs)]; [reflexivity |].
    destruct (curriculum_learning_legacy args); [| reflexivity].
    destruct (cs <? _) eqn:E; [apply Z.ltb_lt in E; lia | reflexivity].
Qed.
End BatchBuilderFacts2.

(** ** Further properties of the curriculum controller *)

Lemma chunk_rows_take {A : Type} (w m n : nat) (l : list A) :
  (m <= n)%nat -> take m (chunk_rows w n l) = chunk_rows w m l.
Proof.
  revert n l. induction m as [| m IH]; intros n l Hle.
  - rewrite take_0. reflexivity.
  - destruct n as [| n]; [lia |]. simpl. rewrite IH by lia. reflexivity.
Qed.

Lemma concat_chunk_rows {A : Type} (w m : nat) (l : list A) :
  (m * w <= length l)%nat -> concat (chunk_rows w m l) = take (m * w) l.
Proof.
  revert l. induction m as [| m IH]; intros l Hlen; simpl.
  - rewrite take_0. reflexivity.
  - rewrite IH by (rewrite length_drop; lia).
    rewrite take_take_drop. reflexivity.
Qed.

Lemma ceil_div_exact (a w : Z) : 0 < w -> ceil_div (a * w) w = a.
Proof.
  intros Hw. unfold ceil_div.
  replace (- (a * w)) with ((- a) * w) by lia. rewrite Z.div_mul by lia. lia.
Qed.

(** The reshape branch spelled out: the rows kept are the first rows of
    the re-chunked prefix columns followed by the trailing columns. *)
Lemma reshape_text_rows (k : Z) (text : tensor2 Z) :
  wf2 text -> 0 <= k -> k + 1 <= Z.of_nat (ncols text) ->
  let w := k + 1 in
  let q := Z.of_nat (ncols text) / w in
  let head := slice_cols None (Some (q * w)) text in
  let tail := slice_cols (Some (- w)) None text in
  let all_rows :=
    chunk_rows (Z.to_nat w) (Z.to_nat (Z.of_nat (nrows text) * q)) (flatten head)
      ++ rows tail in
  let n := even_cap (Z.min (ceil_div (numel text) w) (Z.of_nat (length all_rows))) in
  reshape_text k text = Ok (T2 (take (Z.to_nat n) all_rows) (Z.to_nat w)) /\
  ceil_div (numel text) w <= Z.of_nat (length all_rows) /\
  0 <= ceil_div (numel text) w /\
  Z.of_nat (length (flatten head)) = Z.of_nat (nrows text) * q * w.
Proof.
  intros Hwf Hk Hcols. cbv zeta. unfold reshape_text.
  destruct (k + 1 =? 0) eqn:E; [lia |]. clear E.
  set (w := k + 1) in *.
  set (q := Z.of_nat (ncols text) / w).
  assert (Hq : 1 <= q) by (apply Z.div_le_lower_bound; lia).
  assert (Hqw : q * w <= Z.of_nat (ncols text))
    by (unfold q; rewrite Z.mul_comm; apply Z.mul_div_le; lia).
  assert (Hrem : Z.of_nat (ncols text) < q * w + w).
  { pose proof (Z.div_mod (Z.of_nat (ncols text)) w ltac:(lia)).
    pose proof (Z.mod_pos_bound (Z.of_nat (ncols text)) w ltac:(lia)).
    unfold q. nia. }
  set (head := slice_cols None (Some (q * w)) text).
  assert (Hhead_wf : wf2 head) by (apply wf2_slice_cols; assumption).
  assert (Hhead_cols : Z.of_nat (ncols head) = q * w).
  { unfold head, slice_cols, slice_len, slice_hi, slice_lo, norm_bound. simpl.
    destruct (q * w <? 0) eqn:E; lia. }
  assert (Hhead_numel : numel head = Z.of_nat (nrows text) * q * w).
  { unfold numel. rewrite Hhead_cols. unfold head, nrows, slice_cols. simpl.
    rewrite length_map. lia. }
  unfold view_rows.
  destruct (w <=? 0) eqn:E; [lia |]. clear E.
  assert (Hmod : numel head mod w = 0) by (rewrite Hhead_numel; apply Z.mod_mul; lia).
  rewrite Hmod. simpl negb. cbn iota.
  assert (Hdiv : numel head / w = Z.of_nat (nrows text) * q)
    by (rewrite Hhead_numel; apply Z.div_mul; lia).
  rewrite Hdiv.
  assert (Htail_cols : ncols (slice_cols (Some (- w)) None text) = Z.to_nat w).
  { unfold slice_cols, slice_len, slice_hi, slice_lo, norm_bound. simpl.
    destruct (- w <? 0) eqn:E; lia. }
  cbn [mbind result_bind]. unfold vcat. cbn [ncols].
  rewrite Htail_cols, Nat.eqb_refl.
  set (tail := slice_cols (Some (- w)) None text) in *.
  cbn [mbind result_bind rows ncols nrows].
  set (all_rows := chunk_rows _ _ _ ++ rows tail).
  assert (Hall : Z.of_nat (length all_rows) =
                 Z.of_nat (nrows text) * q + Z.of_nat (nrows text)).
  { unfold all_rows. rewrite length_app, chunk_rows_length.
    unfold tail, slice_cols, nrows. simpl. rewrite length_map. lia. }
  assert (Hnumel : 0 <= numel text) by (unfold numel; lia).
  destruct (ceil_div_bound (numel text) w ltac:(lia) Hnumel) as [Hc0 Hc1].
  assert (Hceil : ceil_div (numel text) w <= Z.of_nat (length all_rows)).
  { rewrite Hall. unfold numel in *. nia. }
  split; [| split; [exact Hceil | split; [exact Hc0 |]]].
  - unfold slice_rows, nrows. cbn [rows ncols].
    set (m := Z.min (ceil_div (numel text) w) (Z.of_nat (length all_rows))).
    change (if (1 <? m) && negb (m mod 2 =? 0) then m - 1 else m) with (even_cap m).
    assert (Hnr : 0 <= even_cap m).
    { unfold even_cap. destruct (_ && _) eqn:Eb; [| lia].
      apply andb_true_iff in Eb as [Eb _]. apply Z.ltb_lt in Eb. lia. }
    rewrite py_slice_prefix by exact Hnr. reflexivity.
  - rewrite (flatten_length head Hhead_wf). exact Hhead_numel.
Qed.

(** X16: in truncate mode with [0 <= current_seqlen + 1] and
    [current_seqlen] below the maximum, every row is cut to its first
    [current_seqlen + 1] entries, the rows are kept in number and order,
    and the mode is recorded; this holds whether or not a reshape
    difficulty is present too. *)
Theorem data_post_process_truncate (args : Args) (text : tensor2 Z)
    (difficulties : gmap string Z) (current_seqlen : Z) :
  data_efficiency_curriculum_learning args = true ->
  difficulties !! "seqlen_truncate"%string = Some current_seqlen ->
  current_seqlen < seq_length args -> 0 <= current_seqlen + 1 ->
  wf2 text ->
  exists out,
    data_post_process args text difficulties =
      Ok (out, set_seqlen_type (Some seqlen_truncate) args) /\
    rows out = map (take (Z.to_nat (current_seqlen + 1))) (rows text) /\
    Z.of_nat (ncols out) = Z.min (current_seqlen + 1) (Z.of_nat (ncols text)) /\
    wf2 out.
Proof.
  intros Hde Htr Hlt Hk Hwf. unfold data_post_process. rewrite Hde, Htr.
  replace (seq_length (set_seqlen_type (Some seqlen_truncate) args))
    with (seq_length args) by reflexivity.
  apply Z.ltb_lt in Hlt. rewrite Hlt. eexists. split; [reflexivity |].
  split; [| split].
  - unfold slice_cols. simpl. apply map_ext. intros row.
    apply py_slice_prefix. exact Hk.
  - unfold slice_cols, slice_len, slice_hi, slice_lo, norm_bound. simpl.
    destruct (current_seqlen + 1 <? 0) eqn:E; lia.
  - apply wf2_slice_cols. exact Hwf.
Qed.

(** X17: [data_post_process] returns the batch unchanged when the
    data-efficiency curriculum is off, when neither difficulty is
    present, and when the difficulty in force is not below the maximum
    sequence length; only the recorded mode may change. *)
Theorem data_post_process_unchanged (args : Args) (text : tensor2 Z)
    (difficulties : gmap string Z) :
  (data_efficiency_curriculum_learning args = false ->
   data_post_process args text difficulties = Ok (text, args)) /\
  (data_efficiency_curriculum_learning args = true ->
   difficulties !! "seqlen_truncate"%string = None ->
   difficulties !! "seqlen_reshape"%string = None ->
   data_post_process args text difficulties =
     Ok (text, set_seqlen_type None args)) /\
  (forall k, data_efficiency_curriculum_learning args = true ->
   difficulties !! "seqlen_truncate"%string = Some k -> seq_length args <= k ->
   data_post_process args text difficulties =
     Ok (text, set_seqlen_type (Some seqlen_truncate) args)) /\
  (forall k, data_efficiency_curriculum_learning args = true ->
   difficulties !! "seqlen_truncate"%string = None ->
   difficulties !! "seqlen_reshape"%string = Some k -> seq_length args <= k ->
   data_post_process args text difficulties =
     Ok (text, set_seqlen_type (Some seqlen_reshape) args)).
Proof.
  unfold data_post_process. split_and!.
  - intros ->. reflexivity.
  - intros -> -> ->. reflexivity.
  - intros k -> -> Hk.
    replace (seq_length (set_seqlen_type (Some seqlen_truncate) args))
      with (seq_length args) by reflexivity.
    destruct (k <? seq_length args) eqn:E; [apply Z.ltb_lt in E; lia | reflexivity].
  - intros k -> -> -> Hk.
    replace (seq_length (set_seqlen_type (Some seqlen_reshape) args))
      with (seq_length args) by reflexivity.
    destruct (k <? seq_length args) eqn:E; [apply Z.ltb_lt in E; lia | reflexivity].
Qed.

Lemma reshape_text_row_count (current_seqlen : Z) (text : tensor2 Z) :
  wf2 text -> 0 <= current_seqlen ->
  current_seqlen + 1 <= Z.of_nat (ncols text) ->
  exists out,
    reshape_text current_seqlen text = Ok out /\
    Z.of_nat (nrows out) = even_cap (ceil_div (numel text) (current_seqlen + 1)).
Proof.
  intros Hwf Hk Hcols.
  destruct (reshape_text_rows current_seqlen text Hwf Hk Hcols)
    as (Hres & Hceil & Hc0 & _).
  eexists. split; [exact Hres |].
  rewrite Z.min_l by exact Hceil. unfold nrows in *. cbn [rows] in *.
  set (c := ceil_div (numel text) (current_seqlen + 1)) in *.
  assert (Hcap : 0 <= even_cap c <= c).
  { unfold even_cap. destruct (_ && _) eqn:Eb; [| lia].
    apply andb_true_iff in Eb as [Eb _]. apply Z.ltb_lt in Eb. lia. }
  rewrite length_take. lia.
Qed.

Lemma reshape_text_divisible (current_seqlen : Z) (text : tensor2 Z) :
  wf2 text -> 0 <= current_seqlen ->
  current_seqlen + 1 <= Z.of_nat (ncols text) ->
  Z.of_nat (ncols text) mod (current_seqlen + 1) = 0 ->
  exists out,
    reshape_text current_seqlen text = Ok out /\
    flatten out = take (Z.to_nat (numel out)) (flatten text) /\
    (even_cap (numel text / (current_seqlen + 1)) = numel text / (current_seqlen + 1) ->
     flatten out = flatten text).
Proof.
  intros Hwf Hk Hcols Hmod.
  destruct (reshape_text_rows current_seqlen text Hwf Hk Hcols)
    as (Hres & Hceil & Hc0 & Hhead).
  set (w := current_seqlen + 1) in *.
  set (q := Z.of_nat (ncols text) / w) in *.
  assert (HC : Z.of_nat (ncols text) = q * w).
  { unfold q. rewrite Z.mul_comm. apply Z.div_exact; lia. }
  assert (Hhead_eq : slice_cols None (Some (q * w)) text = text)
    by (apply slice_cols_prefix_all; [exact Hwf | lia]).
  rewrite Hhead_eq in Hres, Hceil, Hhead.
  assert (Hnumel : numel text = Z.of_nat (nrows text) * q * w)
    by (unfold numel; rewrite HC; lia).
  assert (Hc : ceil_div (numel text) w = Z.of_nat (nrows text) * q)
    by (rewrite Hnumel; apply ceil_div_exact; lia).
  assert (Hdiv : numel text / w = Z.of_nat (nrows text) * q)
    by (rewrite Hnumel; apply Z.div_mul; lia).
  rewrite Z.min_l in Hres by exact Hceil. rewrite Hc in Hres.
  set (n := Z.of_nat (nrows text) * q) in *.
  assert (Hcap : 0 <= even_cap n <= n).
  { unfold even_cap. destruct (_ && _) eqn:Eb; [| lia].
    apply andb_true_iff in Eb as [Eb _]. apply Z.ltb_lt in Eb. lia. }
  rewrite take_app_le in Hres by (rewrite chunk_rows_length; lia).
  rewrite chunk_rows_take in Hres by lia.
  eexists. split; [exact Hres |].
  assert (Hflat : flatten (T2 (chunk_rows (Z.to_nat w) (Z.to_nat (even_cap n))
                                 (flatten text)) (Z.to_nat w)) =
                  take (Z.to_nat (even_cap n) * Z.to_nat w) (flatten text)).
  { unfold flatten at 1. cbn [rows]. apply concat_chunk_rows. nia. }
  split.
  - rewrite Hflat. f_equal. unfold numel, nrows. cbn [rows ncols].
    rewrite chunk_rows_length. lia.
  - rewrite Hdiv. intros Heven. rewrite Hflat, Heven. apply take_ge. nia.
Qed.

Lemma data_post_process_reshape_branch (args : Args) (text : tensor2 Z)
    (difficulties : gmap string Z) (current_seqlen : Z) :
  data_efficiency_curriculum_learning args = true ->
  difficulties !! "seqlen_truncate"%string = None ->
  difficulties !! "seqlen_reshape"%string = Some current_seqlen ->
  current_seqlen < seq_length args ->
  data_post_process args text difficulties =
    (fun t => (t, set_seqlen_type (Some seqlen_reshape) args)) <$>
      reshape_text current_seqlen text.
Proof.
  intros Hde Htr Hre Hlt. unfold data_post_process. rewrite Hde, Htr, Hre.
  replace (seq_length (set_seqlen_type (Some seqlen_reshape) args))
    with (seq_length args) by reflexivity.
  apply Z.ltb_lt in Hlt. rewrite Hlt.
  destruct (reshape_text current_seqlen text); reflexivity.
Qed.

(** X18: the number of rows reshape mode returns is
    [ceil(numel / (current_seqlen + 1))], lowered by one when that is odd
    and above 1; the cap by the rows available never binds. *)
Theorem data_post_process_reshape_row_count (args : Args) (text : tensor2 Z)
    (difficulties : gmap string Z) (current_seqlen : Z) :
  data_efficiency_curriculum_learning args = true ->
  difficulties !! "seqlen_truncate"%string = None ->
  difficulties !! "seqlen_reshape"%string = Some current_seqlen ->
  current_seqlen < seq_length args ->
  wf2 text -> 0 <= current_seqlen ->
  current_seqlen + 1 <= Z.of_nat (ncols text) ->
  exists out,
    data_post_process args text difficulties =
      Ok (out, set_seqlen_type (Some seqlen_reshape) args) /\
    Z.of_nat (nrows out) = even_cap (ceil_div (numel text) (current_seqlen + 1)).
Proof.
  intros Hde Htr Hre Hlt Hwf Hk Hcols.
  destruct (reshape_text_row_count current_seqlen text Hwf Hk Hcols)
    as (out & Hout & Hrows).
  exists out. split; [| exact Hrows].
  rewrite (data_post_process_reshape_branch _ _ _ _ Hde Htr Hre Hlt), Hout.
  reflexivity.
Qed.

(** X19: when [current_seqlen + 1] divides the column count, reshape
    mode returns the leading tokens of the batch in row-major order,
    re-wrapped at the new width: no token is duplicated, and all of them
    are kept when the new row count is even or at most 1. *)
Theorem data_post_process_reshape_divisible (args : Args) (text : tensor2 Z)
    (difficulties : gmap string Z) (current_seqlen : Z) :
  data_efficiency_curriculum_learning args = true ->
  difficulties !! "seqlen_truncate"%string = None ->
  difficulties !! "seqlen_reshape"%string = Some current_seqlen ->
  current_seqlen < seq_length args ->
  wf2 text -> 0 <= current_seqlen ->
  current_seqlen + 1 <= Z.of_nat (ncols text) ->
  Z.of_nat (ncols text) mod (current_seqlen + 1) = 0 ->
  exists out,
    data_post_process args text difficulties =
      Ok (out, set_seqlen_type (Some seqlen_reshape) args) /\
    flatten out = take (Z.to_nat (numel out)) (flatten text) /\
    (even_cap (numel text / (current_seqlen + 1)) = numel text / (current_seqlen + 1) ->
     flatten out = flatten text).
Proof.
  intros Hde Htr Hre Hlt Hwf Hk Hcols Hmod.
  destruct (reshape_text_divisible current_seqlen text Hwf Hk Hcols Hmod)
    as (out & Hout & Hflat).
  exists out. split; [| exact Hflat].
  rewrite (data_post_process_reshape_branch _ _ _ _ Hde Htr Hre Hlt), Hout.
  reflexivity.
Qed.

(** X20: reshape mode fails on a degenerate length: a
    [current_seqlen] of -1 divides by zero, and a batch with fewer than
    [current_seqlen + 1] columns cannot be concatenated with its own
    trailing columns. *)
Theorem data_post_process_reshape_errors (args : Args) (text : tensor2 Z)
    (difficulties : gmap string Z) (current_seqlen : Z) :
  data_efficiency_curriculum_learning args = true ->
  difficulties !! "seqlen_truncate"%string = None ->
  difficulties !! "seqlen_reshape"%string = Some current_seqlen ->
  current_seqlen < seq_length args ->
  (current_seqlen = -1 ->
   data_post_process args text difficulties = Raise ZeroDivisionError) /\
  (0 <= current_seqlen -> Z.of_nat (ncols text) < current_seqlen + 1 ->
   data_post_process args text difficulties = Raise RuntimeError).
Proof.
  intros Hde Htr Hre Hlt. unfold data_post_process. rewrite Hde, Htr, Hre.
  replace (seq_length (set_seqlen_type (Some seqlen_reshape) args))
    with (seq_length args) by reflexivity.
  apply Z.ltb_lt in Hlt. rewrite Hlt. split.
  - intros ->. reflexivity.
  - intros Hk Hcols. unfold reshape_text.
    destruct (current_seqlen + 1 =? 0) eqn:E; [lia |]. clear E.
    set (w := current_seqlen + 1) in *.
    rewrite (Z.div_small (Z.of_nat (ncols text)) w) by lia. rewrite Z.mul_0_l.
    unfold view_rows. destruct (w <=? 0) eqn:E; [lia |]. clear E.
    assert (Hnumel : numel (slice_cols None (Some 0) text) = 0).
    { unfold numel, slice_cols, slice_len, slice_hi, slice_lo, norm_bound.
      simpl. lia. }
    rewrite Hnumel. rewrite Z.mod_0_l by lia. simpl negb. cbn iota.
    unfold vcat. cbn [ncols mbind result_bind].
    assert (Htail : ncols (slice_cols (Some (- w)) None text) = ncols text).
    { unfold slice_cols, slice_len, slice_hi, slice_lo, norm_bound. simpl.
      destruct (- w <? 0) eqn:E; lia. }
    rewrite Htail.
    destruct (Z.to_nat w =? ncols text)%nat eqn:E; [| reflexivity].
    apply Nat.eqb_eq in E. lia.
Qed.

(** ** Further properties of the monolithic path *)

Section StepFacts.
Context `{TensorRuntime}.

(** X21: without a teacher [calculate_mos_loss] returns 0 and never
    fails; with a teacher it raises [TypeError] when the legacy flag is
    set without a [curriculum_seqlen] or when the truncation meets a
    missing attention mask, and [AssertionError] when the teacher output
    and the student output differ in shape. *)
Theorem calculate_mos_loss_errors (args : Args) (stu_output : tensorN)
    (teacher : GPTModel) (tokens position_ids : tensor2 Z)
    (attention_mask : attn_mask) :
  calculate_mos_loss args stu_output None tokens position_ids attention_mask
    = Ok szero /\
  (curriculum_learning_legacy args = true -> curriculum_seqlen args = None ->
   calculate_mos_loss args stu_output (Some teacher) tokens position_ids
     attention_mask = Raise TypeError) /\
  (forall cs, legacy_truncation args = Ok (Some cs) ->
   calculate_mos_loss args stu_output (Some teacher) tokens position_ids None
     = Raise TypeError) /\
  (legacy_truncation args = Ok None ->
   tshape stu_output <>
     tshape (GPTModel_forward teacher tokens position_ids attention_mask None).1 ->
   calculate_mos_loss args stu_output (Some teacher) tokens position_ids
     attention_mask = Raise AssertionError).
Proof.
  split_and!.
  - reflexivity.
  - intros Hleg Hcs. unfold calculate_mos_loss, legacy_truncation.
    rewrite Hleg, Hcs. reflexivity.
  - intros cs Htr. unfold calculate_mos_loss. rewrite Htr. reflexivity.
  - intros Htr Hshape. unfold calculate_mos_loss. rewrite Htr. simpl.
    destruct (GPTModel_forward teacher tokens position_ids attention_mask None)
      as [tea other]. simpl in *.
    rewrite bool_decide_eq_false_2 by exact Hshape. reflexivity.
Qed.

Lemma note_curriculum_set_kd_alpha_ce (v : scalar) (args : Args) (tokens : tensor2 Z) :
  note_curriculum (set_kd_alpha_ce v args) tokens =
  set_kd_alpha_ce v (note_curriculum args tokens).
Proof.
  unfold note_curriculum. simpl.
  destruct (data_efficiency_curriculum_learning args); [| reflexivity].
  simpl. destruct (data_efficiency_curriculum_learning_seqlen_type args) as [[|] |];
    reflexivity.
Qed.

(** X22: [kd_alpha_ce] is read and never used: neither the distillation
    loss nor the loss and metrics of a whole forward step change with
    it. *)
Theorem kd_alpha_ce_unused (v : scalar) (args : Args)
    (teacher_model : option (list GPTModel)) (model : GPTModel)
    (batch : PreparedBatch) :
  (forall stu_output teacher tokens position_ids attention_mask,
     calculate_mos_loss (set_kd_alpha_ce v args) stu_output teacher tokens
       position_ids attention_mask =
     calculate_mos_loss args stu_output teacher tokens position_ids
       attention_mask) /\
  forward_step_loss (set_kd_alpha_ce v args) teacher_model model batch =
    forward_step_loss args teacher_model model batch.
Proof.
  assert (Hmos : forall a stu_output teacher tokens position_ids attention_mask,
     calculate_mos_loss (set_kd_alpha_ce v a) stu_output teacher tokens
       position_ids attention_mask =
     calculate_mos_loss a stu_output teacher tokens position_ids attention_mask)
    by reflexivity.
  split; [apply Hmos |].
  destruct batch as [tokens labels loss_mask am position_ids].
  unfold forward_step_loss, forward_step_on.
  rewrite note_curriculum_set_kd_alpha_ce.
  set (a := note_curriculum args tokens).
  change (mos (set_kd_alpha_ce v a)) with (mos a).
  change (kd (set_kd_alpha_ce v a)) with (kd a).
  change (legacy_truncation (set_kd_alpha_ce v a)) with (legacy_truncation a).
  change (moe_loss_coeff (set_kd_alpha_ce v a)) with (moe_loss_coeff a).
  change (teacher_forward (set_kd_alpha_ce v a)) with (teacher_forward a).
  change (calculate_mos_loss (set_kd_alpha_ce v a)) with (calculate_mos_loss a).
  unfold mbind, result_bind.
  repeat case_match; simplify_eq; reflexivity.
Qed.

Lemma note_curriculum_teacher_forward (args : Args) (tokens : tensor2 Z) :
  teacher_forward (note_curriculum args tokens) = teacher_forward args.
Proof.
  unfold note_curriculum.
  destruct (data_efficiency_curriculum_learning args); [| reflexivity].
  destruct (data_efficiency_curriculum_learning_seqlen_type _) as [[|] |];
    reflexivity.
Qed.

Lemma forward_step_on_inv (args : Args) (teacher_model : option (list GPTModel))
    (model : GPTModel) (batch : PreparedBatch) (output_tensor : tensorN)
    (p : loss_partial) (args' : Args) :
  forward_step_on args teacher_model model batch = Ok (output_tensor, p, args') ->
  args' = note_curriculum args (b_tokens batch) /\
  exists trunc,
    legacy_truncation args' = Ok trunc /\
    p_loss_mask p =
      match trunc with
      | Some cs => slice_cols None (Some cs) (b_loss_mask batch)
      | None => b_loss_mask batch
      end.
Proof.
  destruct batch as [tokens labels loss_mask am position_ids].
  unfold forward_step_on, mbind, result_bind. simpl.
  intros Hstep. repeat case_match; simplify_eq; simpl; eauto.
Qed.

(** X23: outside distillation mode [forward_step] does not look at the
    teacher: its result is the same for any teacher setting, and the
    distillation loss it hands to [loss_func] is 0. *)
Theorem forward_step_ignores_teacher (args : Args)
    (teacher_model teacher_model' : option (list GPTModel)) (model : GPTModel)
    (batch : PreparedBatch) :
  mos args || kd args = false ->
  forward_step_on args teacher_model model batch =
    forward_step_on args teacher_model' model batch /\
  (forall output_tensor p args',
     forward_step_on args teacher_model model batch = Ok (output_tensor, p, args') ->
     p_mos_loss p = szero).
Proof.
  intros Hmode. destruct batch as [tokens labels loss_mask am position_ids].
  destruct (note_curriculum_loss_fields args tokens) as (Hm & Hk & _ & _).
  unfold forward_step_on. rewrite Hm, Hk, Hmode.
  destruct (GPTModel_forward model tokens position_ids am (Some labels))
    as [out other].
  split; [reflexivity |].
  intros output_tensor p args'. simpl.
  destruct (legacy_truncation (note_curriculum args tokens)); simpl;
    [| discriminate].
  intros [= <- <- <-]. reflexivity.
Qed.

(** X24: in distillation mode [forward_step] raises [AssertionError] for
    a model that is not in training mode; for a training model it hands
    on a distillation loss of 0 when the teacher forward is off or no
    teacher is configured, and raises [IndexError] on an empty teacher
    list. *)
Theorem forward_step_distillation_edges (args : Args)
    (teacher_model : option (list GPTModel)) (model : GPTModel)
    (batch : PreparedBatch) (trunc : option Z) :
  mos args || kd args = true ->
  legacy_truncation (note_curriculum args (b_tokens batch)) = Ok trunc ->
  (training model = false ->
   forward_step_on args teacher_model model batch = Raise AssertionError) /\
  (training model = true ->
   teacher_forward args = false \/ teacher_model = None ->
   exists output_tensor p args',
     forward_step_on args teacher_model model batch = Ok (output_tensor, p, args') /\
     p_mos_loss p = szero) /\
  (training model = true -> teacher_forward args = true ->
   teacher_model = Some [] ->
   forward_step_on args teacher_model model batch = Raise IndexError).
Proof.
  intros Hmode Htr. destruct batch as [tokens labels loss_mask am position_ids].
  simpl in Htr.
  destruct (note_curriculum_loss_fields args tokens) as (Hm & Hk & _ & _).
  pose proof (note_curriculum_teacher_forward args tokens) as Htf.
  unfold forward_step_on. rewrite Hm, Hk, Hmode, Htf.
  destruct (GPTModel_forward model tokens position_ids am None) as [stu other].
  rewrite Htr. simpl. rewrite Htr. simpl. split_and!.
  - intros ->. reflexivity.
  - intros -> [-> | ->]; simpl.
    + destruct teacher_model; eexists _, _, _; split; reflexivity.
    + eexists _, _, _; split; reflexivity.
  - intros -> -> ->. reflexivity.
Qed.

(** X25: under the data-efficiency curriculum [forward_step] overwrites
    [args.curriculum_seqlen] with the width of the tokens it received,
    records their element count in reshape mode only, and the legacy
    truncation of the loss mask then works with that width instead of
    the configured value; with the curriculum off [args] is left as it
    was. *)
Theorem forward_step_curriculum_state (args : Args)
    (teacher_model : option (list GPTModel)) (model : GPTModel)
    (batch : PreparedBatch) (output_tensor : tensorN) (p : loss_partial)
    (args' : Args) :
  forward_step_on args teacher_model model batch = Ok (output_tensor, p, args') ->
  (data_efficiency_curriculum_learning args = false -> args' = args) /\
  (data_efficiency_curriculum_learning args = true ->
   curriculum_seqlen args' = Some (Z.of_nat (ncols (b_tokens batch))) /\
   (data_efficiency_curriculum_learning_seqlen_type args = Some seqlen_reshape ->
    data_efficiency_curriculum_learning_numel args' = Some (numel (b_tokens batch))) /\
   (data_efficiency_curriculum_learning_seqlen_type args <> Some seqlen_reshape ->
    data_efficiency_curriculum_learning_numel args' =
      data_efficiency_curriculum_learning_numel args) /\
   (curriculum_learning_legacy args = true ->
    p_loss_mask p =
      if Z.of_nat (ncols (b_tokens batch)) <? seq_length args
      then slice_cols None (Some (Z.of_nat (ncols (b_tokens batch))))
             (b_loss_mask batch)
      else b_loss_mask batch)).
Proof.
  intros Hstep.
  destruct (forward_step_on_inv _ _ _ _ _ _ _ Hstep) as (-> & trunc & Htr & Hmask).
  unfold note_curriculum in *. split.
  - intros Hde. rewrite Hde. reflexivity.
  - intros Hde. rewrite Hde in *. simpl in *.
    destruct (data_efficiency_curriculum_learning_seqlen_type args) as [[|] |];
      simpl in *; (split_and!; [reflexivity | try discriminate; try reflexivity;
                                  try (intros Hne; contradiction) .. |]);
      intros Hleg; unfold legacy_truncation in Htr; simpl in Htr;
      rewrite Hleg in Htr;
      destruct (Z.of_nat (ncols (b_tokens batch)) <? seq_length args);
      injection Htr as <-; exact Hmask.
Qed.
End StepFacts.

(** ** The precomputed attention mask *)

Lemma float_bool_round_trip (m : list (list bool)) :
  map (map float_to_bool) (map (map bool_to_float) m) = m.
Proof.
  rewrite map_map. rewrite <- (map_id m) at 2. apply map_ext. intros row.
  rewrite map_map. rewrite <- (map_id row) at 2. apply map_ext.
  intros []; reflexivity.
Qed.

Lemma tril_ones_lt_half (s : nat) :
  map (map (fun x => slt x (Fin (Q2Qc (1 # 2))))) (tril_ones s) = causal_mask s.
Proof.
  unfold tril_ones, causal_mask. rewrite map_map. apply map_ext. intros i.
  rewrite map_map. apply map_ext. intros j.
  destruct (j <=? i)%nat eqn:E.
  - apply Nat.leb_le in E. destruct (i <? j)%nat eqn:E2;
      [apply Nat.ltb_lt in E2; lia | reflexivity].
  - apply Nat.leb_gt in E. destruct (i <? j)%nat eqn:E2;
      [reflexivity | apply Nat.ltb_ge in E2; lia].
Qed.

(** X26: for a sequence length [s >= 0] the attention mask
    [model_provider] precomputes is the causal mask of shape
    [1, 1, s, s]: position [j] of row [i] is masked exactly when
    [i < j], whatever the fp16 and bf16 flags; a negative length
    fails. *)
Theorem precomputed_attn_mask_causal (seq_length : Z) (fp16 bf16 : bool) :
  (0 <= seq_length ->
   exists m,
     precomputed_attn_mask seq_length fp16 bf16 = Ok [[m]] /\
     length m = Z.to_nat seq_length /\
     forall i j : nat, (i < Z.to_nat seq_length)%nat -> (j < Z.to_nat seq_length)%nat ->
       m !! i ≫= (fun row => row !! j) = Some (bool_decide (i < j)%nat)) /\
  (seq_length < 0 ->
   precomputed_attn_mask seq_length fp16 bf16 = Raise RuntimeError).
Proof.
  split.
  - intros Hs. exists (causal_mask (Z.to_nat seq_length)). split; [| split].
    + unfold precomputed_attn_mask.
      destruct (seq_length <? 0) eqn:E; [apply Z.ltb_lt in E; lia |].
      rewrite float_bool_round_trip, tril_ones_lt_half.
      destruct fp16, bf16; reflexivity.
    + unfold causal_mask. rewrite length_map, length_seq. reflexivity.
    + intros i j Hi Hj. unfold causal_mask.
      rewrite list_lookup_fmap, (lookup_seq_lt _ _ _ Hi). simpl.
      rewrite list_lookup_fmap, (lookup_seq_lt _ _ _ Hj). simpl. f_equal.
      destruct (i <? j)%nat eqn:E.
      * apply Nat.ltb_lt in E. rewrite bool_decide_eq_true_2 by lia. reflexivity.
      * apply Nat.ltb_ge in E. rewrite bool_decide_eq_false_2 by lia. reflexivity.
  - intros Hs. unfold precomputed_attn_mask. apply Z.ltb_lt in Hs. rewrite Hs.
    reflexivity.
Qed.

(** ** The further properties on concrete inputs *)

Lemma custom_forward_split_witness :
  @custom_forward matrix_runtime
    (small_model [dense_layer; moe_layer sone; dense_layer]) 0 3
    (T2 [[sone]] 1) [] None =
  @custom_forward matrix_runtime
    (small_model [dense_layer; moe_layer sone; dense_layer]) 0 1
    (T2 [[sone]] 1) [] None ≫=
  fun r => @custom_forward matrix_runtime
    (small_model [dense_layer; moe_layer sone; dense_layer]) 1 3 r.1 r.2 None.
Proof.
  apply (@custom_forward_split matrix_runtime
           (small_model [dense_layer; moe_layer sone; dense_layer]) 0 1 3).
  lia.
Defined.

Lemma custom_forward_index_error_witness :
  @custom_forward matrix_runtime (small_model [dense_layer; moe_layer sone]) 0 3
    (T2 [[sone]] 1) [] None = Raise IndexError /\
  (exists r, @custom_forward matrix_runtime
     (small_model [dense_layer; moe_layer sone]) (-2) 2 (T2 [[sone]] 1) [] None
     = Ok r) /\
  @custom_forward matrix_runtime (small_model [dense_layer; moe_layer sone]) 5 5
    (T2 [[sone]] 1) [] None = Ok (T2 [[sone]] 1, []).
Proof.
  split; [| split].
  - apply (proj1 (proj2 (@custom_forward_index_error matrix_runtime
             (small_model [dense_layer; moe_layer sone]) 0 3 (T2 [[sone]] 1) [] None)));
      simpl; lia.
  - apply (proj1 (@custom_forward_index_error matrix_runtime
             (small_model [dense_layer; moe_layer sone]) (-2) 2 (T2 [[sone]] 1) [] None));
      simpl; lia.
  - apply (proj2 (proj2 (@custom_forward_index_error matrix_runtime
             (small_model [dense_layer; moe_layer sone]) 5 5 (T2 [[sone]] 1) [] None))).
    lia.
Defined.

Lemma post_process_func_arity_witness :
  @post_process_func matrix_runtime (small_model []) (T2 [[sone]] 1, [Some sone]) []
    = Raise AssertionError /\
  @post_process_func matrix_runtime (small_model []) (T2 [[sone]] 1, [Some sone])
    [T2 [[2]] 1] = Ok (T2 [[sone]] 1, [Some sone]).
Proof.
  split.
  - apply (proj1 (@post_process_func_arity matrix_runtime (small_model [])
                    (T2 [[sone]] 1) [Some sone] [])).
    simpl. lia.
  - apply (proj2 (@post_process_func_arity matrix_runtime (small_model [])
                    (T2 [[sone]] 1) [Some sone] [T2 [[2]] 1]) (T2 [[2]] 1)).
    reflexivity.
Defined.

Lemma loss_func_total_by_mode_witness :
  exists total metrics,
    @loss_func matrix_runtime moe_args (T2 [[sone; sone]] 2) sone szero
      (T2 [[of_Z 3; of_Z 5]] 2) = Ok (total, metrics) /\
    metrics !! "moe loss"%string = Some sone.
Proof.
  eexists _, _. split; [reflexivity |].
  destruct (@loss_func_total_by_mode matrix_runtime moe_args (T2 [[sone; sone]] 2) sone szero
              (T2 [[of_Z 3; of_Z 5]] 2) _ _ eq_refl)
    as (loss & _ & _ & _ & Hdef).
  destruct (Hdef eq_refl) as (m & Hm & _ & Hgt).
  assert (Hm2 : m = 2) by (vm_compute in Hm; congruence).
  apply Hgt. lia.
Defined.

Lemma loss_func_ignores_unused_terms_witness :
  @loss_func matrix_runtime plain_args (T2 [[sone; sone]] 2) szero szero
    (T2 [[of_Z 3; of_Z 5]] 2) =
  @loss_func matrix_runtime plain_args (T2 [[sone; sone]] 2) sone sone
    (T2 [[of_Z 3; of_Z 5]] 2).
Proof.
  apply (proj2 (@loss_func_ignores_unused_terms matrix_runtime plain_args
                  (T2 [[sone; sone]] 2) szero szero sone sone
                  (T2 [[of_Z 3; of_Z 5]] 2) eq_refl) 1 eq_refl).
  lia.
Defined.

Lemma loss_func_no_experts_witness :
  @loss_func matrix_runtime no_experts_args (T2 [[sone; sone]] 2) szero szero
    (T2 [[of_Z 3; of_Z 5]] 2) = Raise ValueError.
Proof.
  apply (proj1 (@loss_func_no_experts matrix_runtime no_experts_args
                  (T2 [[sone; sone]] 2) szero szero (T2 [[of_Z 3; of_Z 5]] 2)
                  (sdiv (tsum (zip_with smul [of_Z 3; of_Z 5] [sone; sone]))
                        (tsum [sone; sone]))
                  eq_refl eq_refl)).
  reflexivity.
Defined.

Lemma loss_func_shape_mismatch_witness :
  @loss_func matrix_runtime plain_args (T2 [[sone; sone]] 2) szero szero
    (T2 [[of_Z 3; of_Z 5; of_Z 7]] 3) = Raise RuntimeError.
Proof.
  apply (proj2 (@loss_func_shape_mismatch matrix_runtime plain_args
                  (T2 [[sone; sone]] 2) szero szero (T2 [[of_Z 3; of_Z 5; of_Z 7]] 3)
                  ltac:(vm_compute; first [reflexivity | discriminate]) ltac:(vm_compute; first [reflexivity | discriminate]) ltac:(vm_compute; first [reflexivity | discriminate]))).
Defined.


Lemma primary_loss_masked_nonfinite_witness :
  @primary_loss matrix_runtime (T2 [[szero; sone]] 2) (T2 [[PInf; of_Z 5]] 2)
    = Ok NaN.
Proof.
  apply (@primary_loss_masked_nonfinite matrix_runtime (T2 [[szero; sone]] 2)
           (T2 [[PInf; of_Z 5]] 2) 0%nat PInf).
  - reflexivity.
  - reflexivity.
  - intros [q Hq]. discriminate Hq.
  - reflexivity.
Defined.

Lemma get_batch_next_token_witness :
  exists batch,
    @get_batch basic_masks plain_args (Mpu 2 1 1 0) (T2 [[1; 2; 3; 4; 5]] 5)
      = Ok batch /\
    entry (b_tokens batch) 0 0 = Some 3 /\
    entry (T2 [[1; 2; 3; 4; 5]] 5) 0 (2 + 0) = Some 3.
Proof.
  eexists. split; [reflexivity |]. split; [reflexivity |].
  apply (proj1 (@get_batch_next_token basic_masks plain_args (Mpu 2 1 1 0)
                  (T2 [[1; 2; 3; 4; 5]] 5) _ eq_refl
                  ltac:(vm_compute; first [reflexivity | discriminate]) ltac:(vm_compute; first [reflexivity | discriminate]) 0%nat 0%nat 3)).
  reflexivity.
Defined.

Lemma get_batch_masks_unsliced_witness :
  exists batch,
    @get_batch basic_masks plain_args (Mpu 2 1 1 0) (T2 [[1; 2; 3; 4; 5]] 5)
      = Ok batch /\
    ncols (b_loss_mask batch) = 4%nat /\
    Z.of_nat (ncols (b_tokens batch)) = 4 / 2.
Proof.
  eexists. split; [reflexivity |]. split; [reflexivity |].
  apply (proj2 (proj2 (@get_batch_masks_unsliced basic_masks plain_args (Mpu 2 1 1 0)
                         (T2 [[1; 2; 3; 4; 5]] 5) _ eq_refl))).
  vm_compute. split; [discriminate | reflexivity].
Defined.

Lemma get_batch_pipe_alignment_witness :
  entry (T2 [[1; 2; 3]] 3) 0 (0 + 1) = Some 2.
Proof.
  apply (proj2 (proj1 (@get_batch_pipe_alignment basic_masks legacy_args
                         (T2 [[1; 2; 3]] 3) (T2 [[1]] 1) (T2 [[0]] 1) (T2 [[2]] 1)
                         (Some [[[[false; true]; [false; false]]]]) (T2 [[sone]] 1)
                         eq_refl) 0%nat 0%nat 2)).
  reflexivity.
Defined.

Lemma get_batch_pipe_edges_witness :
  @get_batch_pipe basic_masks legacy_unset_args (T2 [[1; 2; 3]] 3) = Raise TypeError /\
  @get_batch_pipe basic_masks plain_args (T2 [[1; 2; 3]] 3) =
    Ok ((T2 [[1; 2]] 2, T2 [[0; 1]] 2, Some [[[[false; true]; [false; false]]]]),
        (T2 [[2; 3]] 2, T2 [[sone; sone]] 2)).
Proof.
  split.
  - apply (proj1 (@get_batch_pipe_edges basic_masks legacy_unset_args
                    (T2 [[1; 2; 3]] 3))); reflexivity.
  - apply (proj2 (@get_batch_pipe_edges basic_masks plain_args (T2 [[1; 2; 3]] 3))).
    left. reflexivity.
Defined.

Lemma data_post_process_truncate_witness :
  exists out,
    data_post_process curriculum_args (T2 [[1; 2; 3; 4; 5]] 5)
      {["seqlen_truncate"%string := 2]} =
      Ok (out, set_seqlen_type (Some seqlen_truncate) curriculum_args) /\
    rows out = [[1; 2; 3]].
Proof.
  destruct (data_post_process_truncate curriculum_args (T2 [[1; 2; 3; 4; 5]] 5)
              {["seqlen_truncate"%string := 2]} 2 ltac:(reflexivity) ltac:(reflexivity)
              ltac:(vm_compute; first [reflexivity | discriminate]) ltac:(lia) ltac:(repeat constructor))
    as (out & Hout & Hrows & _).
  exists out. split; [exact Hout | exact Hrows].
Defined.

Lemma data_post_process_unchanged_witness :
  data_post_process plain_args (T2 [[1; 2; 3; 4; 5]] 5)
    {["seqlen_truncate"%string := 2]} = Ok (T2 [[1; 2; 3; 4; 5]] 5, plain_args) /\
  data_post_process curriculum_args (T2 [[1; 2; 3; 4; 5]] 5)
    {["seqlen_truncate"%string := 4]} =
    Ok (T2 [[1; 2; 3; 4; 5]] 5, set_seqlen_type (Some seqlen_truncate) curriculum_args).
Proof.
  split.
  - apply (proj1 (data_post_process_unchanged plain_args (T2 [[1; 2; 3; 4; 5]] 5)
                    {["seqlen_truncate"%string := 2]})).
    reflexivity.
  - apply (proj1 (proj2 (proj2 (data_post_process_unchanged curriculum_args
                    (T2 [[1; 2; 3; 4; 5]] 5) {["seqlen_truncate"%string := 4]}))) 4).
    + reflexivity.
    + reflexivity.
    + simpl. lia.
Defined.

Lemma data_post_process_reshape_row_count_witness :
  exists out,
    data_post_process curriculum_args (T2 [[1; 2; 3; 4; 5; 6; 7; 8; 9]] 9)
      {["seqlen_reshape"%string := 3]} =
      Ok (out, set_seqlen_type (Some seqlen_reshape) curriculum_args) /\
    Z.of_nat (nrows out) = 2.
Proof.
  destruct (data_post_process_reshape_row_count curriculum_args
              (T2 [[1; 2; 3; 4; 5; 6; 7; 8; 9]] 9) {["seqlen_reshape"%string := 3]} 3
              ltac:(reflexivity) ltac:(reflexivity) ltac:(reflexivity) ltac:(vm_compute; first [reflexivity | discriminate]) ltac:(repeat constructor)
              ltac:(lia) ltac:(vm_compute; first [reflexivity | discriminate]))
    as (out & Hout & Hrows).
  exists out. split; [exact Hout | exact Hrows].
Defined.

Lemma data_post_process_reshape_divisible_witness :
  exists out,
    data_post_process curriculum_args (T2 [[1; 2; 3; 4; 5; 6; 7; 8]] 8)
      {["seqlen_reshape"%string := 3]} =
      Ok (out, set_seqlen_type (Some seqlen_reshape) curriculum_args) /\
    flatten out = [1; 2; 3; 4; 5; 6; 7; 8].
Proof.
  destruct (data_post_process_reshape_divisible curriculum_args
              (T2 [[1; 2; 3; 4; 5; 6; 7; 8]] 8) {["seqlen_reshape"%string := 3]} 3
              ltac:(reflexivity) ltac:(reflexivity) ltac:(reflexivity) ltac:(vm_compute; first [reflexivity | discriminate]) ltac:(repeat constructor)
              ltac:(lia) ltac:(vm_compute; first [reflexivity | discriminate]) ltac:(reflexivity))
    as (out & Hout & _ & Hall).
  exists out. split; [exact Hout |]. apply Hall. reflexivity.
Defined.

Lemma data_post_process_reshape_errors_witness :
  data_post_process curriculum_args (T2 [[1; 2; 3; 4; 5]] 5)
    {["seqlen_reshape"%string := -1]} = Raise ZeroDivisionError /\
  data_post_process curriculum_args (T2 [[1; 2]] 2)
    {["seqlen_reshape"%string := 3]} = Raise RuntimeError.
Proof.
  split.
  - apply (proj1 (data_post_process_reshape_errors curriculum_args
                    (T2 [[1; 2; 3; 4; 5]] 5) {["seqlen_reshape"%string := -1]} (-1)
                    ltac:(reflexivity) ltac:(reflexivity) ltac:(reflexivity) ltac:(vm_compute; first [reflexivity | discriminate]))).
    reflexivity.
  - apply (proj2 (data_post_process_reshape_errors curriculum_args
                    (T2 [[1; 2]] 2) {["seqlen_reshape"%string := 3]} 3
                    ltac:(reflexivity) ltac:(reflexivity) ltac:(reflexivity) ltac:(vm_compute; first [reflexivity | discriminate]))); simpl; lia.
Defined.

Lemma calculate_mos_loss_errors_witness :
  @calculate_mos_loss matrix_runtime legacy_unset_args (T2 [[sone]] 1)
    (Some (small_model [])) (T2 [[1; 2]] 2) (T2 [[0; 1]] 2) None = Raise TypeError /\
  @calculate_mos_loss matrix_runtime legacy_args (T2 [[sone]] 1)
    (Some (small_model [])) (T2 [[1; 2]] 2) (T2 [[0; 1]] 2) None = Raise TypeError /\
  @calculate_mos_loss matrix_runtime kd_args (T2 [[sone]] 1)
    (Some (small_model [])) (T2 [[1; 2]] 2) (T2 [[0; 1]] 2) None
    = Raise AssertionError.
Proof.
  split; [| split].
  - apply (proj1 (proj2 (@calculate_mos_loss_errors matrix_runtime legacy_unset_args
             (T2 [[sone]] 1) (small_model []) (T2 [[1; 2]] 2) (T2 [[0; 1]] 2) None)));
      reflexivity.
  - apply (proj1 (proj2 (proj2 (@calculate_mos_loss_errors matrix_runtime legacy_args
             (T2 [[sone]] 1) (small_model []) (T2 [[1; 2]] 2) (T2 [[0; 1]] 2) None))) 1).
    reflexivity.
  - apply (proj2 (proj2 (proj2 (@calculate_mos_loss_errors matrix_runtime kd_args
             (T2 [[sone]] 1) (small_model []) (T2 [[1; 2]] 2) (T2 [[0; 1]] 2) None)))).
    + reflexivity.
    + simpl. intros Heq. discriminate Heq.
Defined.

Lemma forward_step_ignores_teacher_witness :
  @forward_step_on matrix_runtime plain_args (Some [small_model [shift_layer]])
    (small_model []) small_batch =
  @forward_step_on matrix_runtime plain_args None (small_model []) small_batch.
Proof.
  apply (proj1 (@forward_step_ignores_teacher matrix_runtime plain_args
                  (Some [small_model [shift_layer]]) None (small_model [])
                  small_batch eq_refl)).
Defined.

Lemma forward_step_distillation_edges_witness :
  @forward_step_on matrix_runtime kd_args (Some [small_model [shift_layer]])
    (eval_model []) small_batch = Raise AssertionError /\
  @forward_step_on matrix_runtime kd_args (Some []) (small_model []) small_batch
    = Raise IndexError.
Proof.
  split.
  - apply (proj1 (@forward_step_distillation_edges matrix_runtime kd_args
                    (Some [small_model [shift_layer]]) (eval_model []) small_batch
                    None eq_refl eq_refl)).
    reflexivity.
  - apply (proj2 (proj2 (@forward_step_distillation_edges matrix_runtime kd_args
                    (Some []) (small_model []) small_batch None eq_refl eq_refl)));
      reflexivity.
Defined.

Lemma forward_step_curriculum_state_witness :
  exists output_tensor p args',
    @forward_step_on matrix_runtime curriculum_legacy_args None (small_model [])
      small_batch = Ok (output_tensor, p, args') /\
    curriculum_seqlen args' = Some 2 /\
    p_loss_mask p = T2 [[sone; sone]] 2.
Proof.
  eexists _, _, _. split; [reflexivity |].
  destruct (@forward_step_curriculum_state matrix_runtime curriculum_legacy_args
              None (small_model []) small_batch _ _ _ eq_refl) as [_ Hde].
  destruct (Hde eq_refl) as (Hcs & _ & _ & Hmask).
  split; [exact Hcs |]. rewrite (Hmask eq_refl). reflexivity.
Defined.

Lemma precomputed_attn_mask_causal_witness :
  exists m,
    precomputed_attn_mask 2 true false = Ok [[m]] /\
    m !! 0%nat ≫= (fun row => row !! 1%nat) = Some true /\
    m !! 1%nat ≫= (fun row => row !! 0%nat) = Some false.
Proof.
  destruct (proj1 (precomputed_attn_mask_causal 2 true false) ltac:(lia))
    as (m & Hm & _ & Hent).
  exists m. split; [exact Hm |]. split.
  - rewrite (Hent 0%nat 1%nat) by (simpl; lia). reflexivity.
  - rewrite (Hent 1%nat 0%nat) by (simpl; lia). reflexivity.
Defined.

(** ** The staged path from the batch function *)

Section StagedFromBatch.
Context `{MaskBuilder} `{TensorRuntime}.

End StagedFromBatch.

